(** * edalize: the ModelSim backend (edalize/modelsim.py)

    A shallow embedding of the [Modelsim] backend of edalize: the generation of
    [edalize_build_rtl.tcl], [edalize_main.tcl] and the [Makefile], and the
    [make run] invocation, followed by the properties of the generated
    artifacts.

    Conventions of the embedding.
    - A Python [str] is a [string]; a Python list of strings is a
      [list string]; a Python dict is an association list in insertion order
      (the order [items()] iterates in).
    - A file opened for writing is the list of the arguments of its [write]
      calls, in order.  For [edalize_build_rtl.tcl] each call is recorded with
      the arguments of its format string ([tcl_line]); [render] is the format
      string itself, and the text of the file is the concatenation of the
      rendered calls.
    - [logger.warning] appends to a list of messages.
    - The [File] objects handed over by [_get_fileset_files] are mutated in
      place by the source; the embedding returns them as they are after the
      loop.
    - [Edatool._param_value_str] is not part of this file of the repository; it
      is a parameter of the development.
    - [os.path] is [posixpath] or, on a Windows host, [ntpath]; the host is a
      parameter of the development ([host]). *)

From Stdlib Require Import ZArith Ascii.
From stdpp Require Import base option list sets strings.

#[local] Set Warnings "-clear-no-such-hyp".

Local Open Scope Z_scope.

(** ** Python string primitives *)

Module PyStr.

Definition nl : string := String (ascii_of_nat 10) EmptyString.
Definition tab : string := String (ascii_of_nat 9) EmptyString.
Definition dquote : string := String (ascii_of_nat 34) EmptyString.
Definition backslash : ascii := ascii_of_nat 92.
Definition slash : ascii := ascii_of_nat 47.
Definition dot : ascii := ascii_of_nat 46.

(** [s.startswith(p)] *)
Fixpoint startswith (s p : string) : bool :=
  match p with
  | EmptyString => true
  | String c p' =>
      match s with
      | EmptyString => false
      | String d s' => Ascii.eqb d c && startswith s' p'
      end
  end.

(** [s.endswith(p)] *)
Definition endswith (s p : string) : bool :=
  startswith (String.rev s) (String.rev p).

(** [s.replace(old, new)] for one-character [old] and [new]. *)
Fixpoint replace (old new : ascii) (s : string) : string :=
  match s with
  | EmptyString => EmptyString
  | String c s' =>
      String (if Ascii.eqb c old then new else c) (replace old new s')
  end.

(** [sep.join(l)] *)
Fixpoint join (sep : string) (l : list string) : string :=
  match l with
  | [] => EmptyString
  | [x] => x
  | x :: l' => x +:+ sep +:+ join sep l'
  end.

(** [s.rfind(c)] for a one-character [c]: the highest index, or -1. *)
Fixpoint rfind_from (i : Z) (c : ascii) (s : string) : Z :=
  match s with
  | EmptyString => -1
  | String d s' =>
      let r := rfind_from (i + 1) c s' in
      if 0 <=? r then r else if Ascii.eqb d c then i else -1
  end.
Definition rfind (s : string) (c : ascii) : Z := rfind_from 0 c s.

(** [s[i:j]] for [0 <= i <= j]. *)
Definition slice (s : string) (i j : Z) : string :=
  String.substring (Z.to_nat i) (Z.to_nat (j - i)) s.

Definition len (s : string) : Z := Z.of_nat (String.length s).

(** Whether every character of [s] is [c]. *)
Fixpoint all_of (c : ascii) (s : string) : bool :=
  match s with
  | EmptyString => true
  | String d s' => Ascii.eqb d c && all_of c s'
  end.

(** [genericpath._splitext(p, sep, altsep, extsep)]: the extension starts at
    the last [extsep] of the last path component, unless that component has
    nothing but [extsep] before it. *)
Definition genericpath_splitext (p : string) (sep : ascii)
    (altsep : option ascii) (extsep : ascii) : string * string :=
  let sepIndex := rfind p sep in
  let sepIndex :=
    match altsep with
    | Some a => Z.max sepIndex (rfind p a)
    | None => sepIndex
    end in
  let dotIndex := rfind p extsep in
  if (sepIndex <? dotIndex)
     && negb (all_of extsep (slice p (sepIndex + 1) dotIndex))
  then (slice p 0 dotIndex, slice p dotIndex (len p))
  else (p, EmptyString).

(** The module [os.path] is bound to: [posixpath], or [ntpath] on a Windows
    host. *)
Inductive platform := Posix | Nt.

(** [os.path.splitext(p)]: [posixpath] has the slash as its only separator,
    [ntpath] the backslash and, as alternative, the slash. *)
Definition splitext (host : platform) (p : string) : string * string :=
  match host with
  | Posix => genericpath_splitext p slash None dot
  | Nt => genericpath_splitext p backslash (Some slash) dot
  end.

(** Truth value of a string: the empty string is false. *)
Definition truthy (s : string) : bool :=
  match s with EmptyString => false | _ => true end.

End PyStr.

Import PyStr.

(** ** Data model *)

(** A [File] object of [_get_fileset_files]. [logical_name] may be [None] or
    the empty string when the file set gives no library. *)
Record SourceFile := mkSourceFile {
  name : string;
  file_type : string;
  logical_name : option string
}.

(** [self.tool_options]: a key that is absent is [None]. *)
Record ToolOptions := mkToolOptions {
  compilation_mode : option string;
  vcom_options : option (list string);
  vlog_options : option (list string);
  vsim_options : option (list string)
}.

(** An entry of [self.vpi_modules]. *)
Record VpiModule := mkVpiModule {
  vpi_name : string;
  vpi_src_files : list string;
  vpi_libs : list string;
  vpi_include_dirs : list string
}.

(** One [tcl_build_rtl.write] call, with the arguments of its format
    string. *)
Inductive tcl_line :=
  | Vlib (lib : string)
  | Cmd (cmd : string) (args : list string)
  | CommonVlog (args : list string) (vlog_files : list string).

(** The text written by the call. *)
Definition render (l : tcl_line) : string :=
  match l with
  | Vlib lib => "vlib " +:+ lib +:+ nl
  | Cmd cmd args => cmd +:+ " " +:+ join " " args +:+ nl
  | CommonVlog args files => "vlog " +:+ join " " args +:+ " " +:+ join " " files
  end.

(** The contents of a file from its [write] calls. *)
Definition file_text (writes : list string) : string :=
  foldr String.append EmptyString writes.

Definition build_rtl_text (lines : list tcl_line) : string :=
  file_text (render <$> lines).

(** Truth value of [f.logical_name]. *)
Definition name_truthy (o : option string) : bool :=
  match o with
  | Some s => truthy s
  | None => false
  end.

(** Truth value of [cmd], which is [None] or a command name. *)
Definition cmd_truthy (cmd : option string) : bool := name_truthy cmd.

Definition with_logical_name (f : SourceFile) (n : string) : SourceFile :=
  {| name := name f; file_type := file_type f; logical_name := Some n |}.

(** The library a file is compiled into once the loop has visited it. *)
Definition lib_of (f : SourceFile) : string :=
  if name_truthy (logical_name f) then default EmptyString (logical_name f)
  else "work".

(** ** Sample inputs *)

Module Demo.

(** Dictionaries whose values are strings already, rendered as they are. *)
Definition str_value (v : string) (bool_is_str : bool) : string := v.

Definition options (mode : option string) : ToolOptions :=
  {| compilation_mode := mode;
     vcom_options := Some ["-explicit"];
     vlog_options := Some ["-timescale=1ns/1ps"];
     vsim_options := None |}.

Definition foo : VpiModule :=
  {| vpi_name := "foo";
     vpi_src_files := ["a.c"; "b.cpp"];
     vpi_libs := ["m"];
     vpi_include_dirs := ["/x"] |}.

Definition a_v := mkSourceFile "rtl\a.v" "verilogSource" None.
Definition s_sv := mkSourceFile "s.sv" "systemVerilogSource" (Some "lib1").
Definition b_vhd := mkSourceFile "b.vhd" "vhdlSource-2008" (Some "lib1").
Definition c_tcl := mkSourceFile "c.tcl" "tclSource" (Some "lib2").
Definition e_x := mkSourceFile "e.x" "weird" (Some "lib3").
Definition u_dat := mkSourceFile "u.dat" "user" (Some "lib1").

Definition files : list SourceFile := [a_v; s_sv; b_vhd; c_tcl; e_x; u_dat].

Definition incdirs : list string := ["inc\hdr"].

End Demo.

(** ** The backend *)

Section Modelsim.

(** The type of the values of the parameter dictionaries, and
    [Edatool._param_value_str(value, bool_is_str)]. *)
Variable value : Type.
Variable param_value_str : value -> bool -> string.

(** The platform of the host, which decides what [os.path] is. *)
Variable host : platform.

(** The attributes of [self] that the backend reads. *)
Record Edatool := mkEdatool {
  tool_options : ToolOptions;
  vlogdefine : list (string * value);
  vlogparam : list (string * value);
  generic : list (string * value);
  plusarg : list (string * value);
  vpi_modules : list VpiModule;
  toplevel : string
}.

Definition set_vlog_options (o : ToolOptions) (l : list string) : ToolOptions :=
  {| compilation_mode := compilation_mode o;
     vcom_options := vcom_options o;
     vlog_options := Some l;
     vsim_options := vsim_options o |}.

Definition set_tool_options (self : Edatool) (o : ToolOptions) : Edatool :=
  {| tool_options := o;
     vlogdefine := vlogdefine self;
     vlogparam := vlogparam self;
     generic := generic self;
     plusarg := plusarg self;
     vpi_modules := vpi_modules self;
     toplevel := toplevel self |}.

(** ["{}={}".format(k, self._param_value_str(v, bool_is_str))] per item. *)
Definition key_values (bool_is_str : bool) (d : list (string * value)) : list string :=
  (fun kv => fst kv +:+ "=" +:+ param_value_str (snd kv) bool_is_str) <$> d.

(** ["+define+{}={}".format(k, self._param_value_str(v))] per item. *)
Definition define_flags (d : list (string * value)) : list string :=
  (fun kv => "+define+" +:+ fst kv +:+ "=" +:+ param_value_str (snd kv) false) <$> d.

(** *** _write_build_rtl_tcl_file *)

(** The variables of the loop over [src_files]. [st_args] is the local
    variable [args], which lives across iterations (unbound before its first
    assignment in the source, and never read there before one). *)
Record loop_state := mkLoop {
  st_libs : list string;
  st_vlog_files : list SourceFile;
  st_args : list string;
  st_build : list tcl_line;
  st_main : list string;
  st_log : list string;
  st_files : list SourceFile
}.

Definition declare_lib (st : loop_state) (ln : string) : loop_state :=
  if bool_decide (ln ∈ st_libs st) then st
  else {| st_libs := st_libs st ++ [ln];
          st_vlog_files := st_vlog_files st;
          st_args := st_args st;
          st_build := st_build st ++ [Vlib ln];
          st_main := st_main st;
          st_log := st_log st;
          st_files := st_files st |}.

Definition add_vlog_file (st : loop_state) (f : SourceFile) : loop_state :=
  {| st_libs := st_libs st;
     st_vlog_files := st_vlog_files st ++ [f];
     st_args := st_args st;
     st_build := st_build st;
     st_main := st_main st;
     st_log := st_log st;
     st_files := st_files st |}.

Definition write_main (st : loop_state) (s : string) : loop_state :=
  {| st_libs := st_libs st;
     st_vlog_files := st_vlog_files st;
     st_args := st_args st;
     st_build := st_build st;
     st_main := st_main st ++ [s];
     st_log := st_log st;
     st_files := st_files st |}.

Definition warn (st : loop_state) (s : string) : loop_state :=
  {| st_libs := st_libs st;
     st_vlog_files := st_vlog_files st;
     st_args := st_args st;
     st_build := st_build st;
     st_main := st_main st;
     st_log := st_log st ++ [s];
     st_files := st_files st |}.

(** The end of the loop body: the compile command is written unless there is
    none, or it is [vlog] under common compilation. *)
Definition finish_file (common_compilation : bool) (st : loop_state)
    (cmd : option string) (args : list string) (f : SourceFile) : loop_state :=
  if cmd_truthy cmd && (negb (bool_decide (cmd = Some "vlog")) || negb common_compilation)
  then
    let args := args ++ ["-quiet"] in
    let args := args ++ ["-work"; default EmptyString (logical_name f)] in
    let args := args ++ [replace backslash slash (name f)] in
    {| st_libs := st_libs st;
       st_vlog_files := st_vlog_files st;
       st_args := args;
       st_build := st_build st ++ [Cmd (default EmptyString cmd) args];
       st_main := st_main st;
       st_log := st_log st;
       st_files := st_files st ++ [f] |}
  else
    {| st_libs := st_libs st;
       st_vlog_files := st_vlog_files st;
       st_args := args;
       st_build := st_build st;
       st_main := st_main st;
       st_log := st_log st;
       st_files := st_files st ++ [f] |}.

Definition unknown_type_msg (f : SourceFile) : string :=
  name f +:+ " has unknown file type '" +:+ file_type f +:+ "'".

(** The body of [for f in src_files]. *)
Definition process_file (self : Edatool) (vlog_include_dirs : list string)
    (common_compilation : bool) (st : loop_state) (f : SourceFile) : loop_state :=
  let f := if negb (name_truthy (logical_name f))
           then with_logical_name f "work" else f in
  let st := declare_lib st (default EmptyString (logical_name f)) in
  let ft := file_type f in
  if startswith ft "verilogSource" || startswith ft "systemVerilogSource" then
    let st := add_vlog_file st f in
    let args := [] in
    let args := args ++ default [] (vlog_options (tool_options self)) in
    let args := args ++ define_flags (vlogdefine self) in
    let args := if startswith ft "systemVerilogSource"
                then args ++ ["-sv"] else args in
    let args := args ++ vlog_include_dirs in
    finish_file common_compilation st (Some "vlog") args f
  else if startswith ft "vhdlSource" then
    let args := st_args st in
    let args := if endswith ft "-87" then ["-87"] else args in
    let args := if endswith ft "-93" then ["-93"] else args in
    let args := if endswith ft "-2008" then ["-2008"] else [] in
    let args := args ++ default [] (vcom_options (tool_options self)) in
    finish_file common_compilation st (Some "vcom") args f
  else if bool_decide (ft = "tclSource") then
    let st := write_main st ("do " +:+ name f +:+ nl) in
    finish_file common_compilation st None (st_args st) f
  else if bool_decide (ft = "user") then
    finish_file common_compilation st None (st_args st) f
  else
    let st := warn st (unknown_type_msg f) in
    finish_file common_compilation st None (st_args st) f.

(** What [_write_build_rtl_tcl_file] leaves behind: the writes to
    [edalize_build_rtl.tcl], the writes it added to [tcl_main], the
    warnings, the [File] objects and [self] as they are afterwards. *)
Record build_result := mkBuild {
  build_rtl : list tcl_line;
  main_tcl : list string;
  warnings : list string;
  files_after : list SourceFile;
  self_after : Edatool
}.

Definition is_sv (f : SourceFile) : bool :=
  startswith (file_type f) "systemVerilogSource".

(** [src_files] and [incdirs] are the pair returned by
    [self._get_fileset_files()]; [tcl_main] the writes made to
    [edalize_main.tcl] so far. *)
Definition write_build_rtl_tcl_file (self : Edatool)
    (src_files : list SourceFile) (incdirs : list string)
    (tcl_main : list string) : build_result :=
  let vlog_include_dirs :=
    (fun d => "+incdir+" +:+ replace backslash slash d) <$> incdirs in
  let common_compilation :=
    bool_decide (compilation_mode (tool_options self) = Some "common") in
  let st :=
    foldl (process_file self vlog_include_dirs common_compilation)
      {| st_libs := []; st_vlog_files := []; st_args := [];
         st_build := []; st_main := tcl_main; st_log := [];
         st_files := [] |}
      src_files in
  if common_compilation then
    let args := default [] (vlog_options (tool_options self)) in
    let args := args ++ define_flags (vlogdefine self) in
    let _vlog_files :=
      (fun f => replace backslash slash (name f)) <$> st_vlog_files st in
    let has_sv := existsb is_sv (st_vlog_files st) in
    let args := if has_sv then args ++ ["-sv"] else args in
    let args := args ++ vlog_include_dirs in
    let args := args ++ ["-quiet"] in
    let args := args ++ ["-work"; "work"] in
    let args := args ++ ["-mfcu"] in
    (* [args] is the list object stored under "vlog_options" when the key
       is present: the in-place [+=] above extend that list too. *)
    let self' :=
      match vlog_options (tool_options self) with
      | Some _ => set_tool_options self (set_vlog_options (tool_options self) args)
      | None => self
      end in
    {| build_rtl := st_build st ++ [CommonVlog args _vlog_files];
       main_tcl := st_main st;
       warnings := st_log st;
       files_after := st_files st;
       self_after := self' |}
  else
    {| build_rtl := st_build st;
       main_tcl := st_main st;
       warnings := st_log st;
       files_after := st_files st;
       self_after := self |}.

(** *** _write_makefile *)

(** [MAKE_HEADER.format(toplevel=..., modules=..., parameters=...,
    plusargs=..., vsim_options=..., clean_targets=...)] *)
Definition MAKE_HEADER (toplevel modules parameters plusargs vsim_options
    clean_targets : string) : string :=
  "#Generated by Edalize" +:+ nl +:+
  "ifndef MODEL_TECH" +:+ nl +:+
  "$(error Environment variable MODEL_TECH was not found. It should be set to <modelsim install path>/bin)" +:+ nl +:+
  "endif" +:+ nl +:+
  nl +:+
  "CC ?= gcc" +:+ nl +:+
  "CFLAGS   := -fPIC -fno-stack-protector -g -std=c99" +:+ nl +:+
  "CXXFLAGS := -fPIC -fno-stack-protector -g" +:+ nl +:+
  nl +:+
  "LD ?= ld" +:+ nl +:+
  "LDFLAGS := -shared -E" +:+ nl +:+
  nl +:+
  "#Try to determine if ModelSim is 32- or 64-bit." +:+ nl +:+
  "#To manually override, set the environment MTI_VCO_MODE to 32 or 64" +:+ nl +:+
  "ifeq ($(findstring 64, $(shell $(MODEL_TECH)/../vco)),)" +:+ nl +:+
  "CFLAGS   += -m32" +:+ nl +:+
  "CXXFLAGS += -m32" +:+ nl +:+
  "LDFLAGS  += -melf_i386" +:+ nl +:+
  "endif" +:+ nl +:+
  nl +:+
  "RM ?= rm" +:+ nl +:+
  "INCS := -I$(MODEL_TECH)/../include" +:+ nl +:+
  nl +:+
  "VSIM ?= $(MODEL_TECH)/vsim" +:+ nl +:+
  nl +:+
  "TOPLEVEL      := " +:+ toplevel +:+ nl +:+
  "VPI_MODULES   := " +:+ modules +:+ nl +:+
  "PARAMETERS    ?= " +:+ parameters +:+ nl +:+
  "PLUSARGS      ?= " +:+ plusargs +:+ nl +:+
  "VSIM_OPTIONS  ?= " +:+ vsim_options +:+ nl +:+
  "EXTRA_OPTIONS ?= $(VSIM_OPTIONS) $(addprefix -g,$(PARAMETERS)) $(addprefix +,$(PLUSARGS))" +:+ nl +:+
  nl +:+
  "all: work $(VPI_MODULES)" +:+ nl +:+
  nl +:+
  "run: work $(VPI_MODULES)" +:+ nl +:+
  tab +:+ "$(VSIM) -c $(addprefix -pli ,$(VPI_MODULES)) $(EXTRA_OPTIONS) -do " +:+ dquote +:+
    "run -all; quit -code [expr [coverage attribute -name TESTSTATUS -concise] >= 2 ? [coverage attribute -name TESTSTATUS -concise] : 0]; exit" +:+
    dquote +:+ " $(TOPLEVEL)" +:+ nl +:+
  nl +:+
  "run-gui: work $(VPI_MODULES)" +:+ nl +:+
  tab +:+ "$(VSIM) -gui $(addprefix -pli ,$(VPI_MODULES)) $(EXTRA_OPTIONS) $(TOPLEVEL)" +:+ nl +:+
  nl +:+
  "work:" +:+ nl +:+
  tab +:+ "$(VSIM) -c -do " +:+ dquote +:+ "do edalize_main.tcl; exit" +:+ dquote +:+ nl +:+
  nl +:+
  "clean: " +:+ clean_targets +:+ nl.

(** The lines of [VPI_MAKE_SECTION.format(name=..., objs=..., libs=...,
    incs=...)] after its leading newline; each is followed by a newline. *)
Definition vpi_section_lines (name objs libs incs : string) : list string :=
  [ name +:+ "_OBJS := " +:+ objs;
    name +:+ "_LIBS := " +:+ libs;
    name +:+ "_INCS := $(INCS) " +:+ incs;
    EmptyString;
    "$(" +:+ name +:+ "_OBJS): CPPFLAGS := $(" +:+ name +:+ "_INCS)";
    EmptyString;
    name +:+ ": $(" +:+ name +:+ "_OBJS)";
    tab +:+ "$(LD) $(LDFLAGS) -o $@ $? $(" +:+ name +:+ "_LIBS)";
    EmptyString;
    "clean_" +:+ name +:+ ":";
    tab +:+ "$(RM) $(" +:+ name +:+ "_OBJS) " +:+ name ].

Definition VPI_MAKE_SECTION (name objs libs incs : string) : string :=
  nl +:+ file_text ((fun l => l +:+ nl) <$> vpi_section_lines name objs libs incs).

(** The body of [for vpi_module in self.vpi_modules]. *)
Definition vpi_section (vpi_module : VpiModule) : string :=
  let _name := vpi_name vpi_module in
  let _objs :=
    (fun s => fst (splitext host s) +:+ ".o") <$> vpi_src_files vpi_module in
  let _libs := (fun l => "-l" +:+ l) <$> vpi_libs vpi_module in
  let _incs := (fun d => "-I" +:+ d) <$> vpi_include_dirs vpi_module in
  VPI_MAKE_SECTION _name (join " " _objs) (join " " _libs) (join " " _incs).

(** The writes to [Makefile]. *)
Definition write_makefile (self : Edatool) : list string :=
  let _parameters :=
    key_values false (vlogparam self) ++ key_values true (generic self) in
  let _plusargs := key_values false (plusarg self) in
  let _vsim_options := default [] (vsim_options (tool_options self)) in
  let _modules := vpi_name <$> vpi_modules self in
  let _clean_targets := join " " ((fun m => "clean_" +:+ m) <$> _modules) in
  let _s :=
    MAKE_HEADER (toplevel self) (join " " _modules) (join " " _parameters)
      (join " " _plusargs) (join " " _vsim_options) _clean_targets in
  [_s] ++ (vpi_section <$> vpi_modules self).

(** *** configure_main *)

(** The three files written into [work_root], the warnings logged, and the
    [File] objects and [self] as generation leaves them. *)
Record artifacts := mkArtifacts {
  edalize_build_rtl_tcl : list tcl_line;
  edalize_main_tcl : list string;
  Makefile : list string;
  log : list string;
  src_files_after : list SourceFile;
  edatool_after : Edatool
}.

Definition configure_main (self : Edatool) (src_files : list SourceFile)
    (incdirs : list string) : artifacts :=
  let tcl_main := ["onerror { quit -code 1; }" +:+ nl] in
  let tcl_main := tcl_main ++ ["do edalize_build_rtl.tcl" +:+ nl] in
  let r := write_build_rtl_tcl_file self src_files incdirs tcl_main in
  let mk := write_makefile (self_after r) in
  {| edalize_build_rtl_tcl := build_rtl r;
     edalize_main_tcl := main_tcl r;
     Makefile := mk;
     log := warnings r;
     src_files_after := files_after r;
     edatool_after := self_after r |}.

(** *** run_main *)

(** The call [self._run_tool(cmd, args)] that [run_main] ends with. *)
Definition run_main (self : Edatool) : string * list string :=
  let args := ["run"] in
  let args :=
    if bool_decide (plusarg self ≠ []) then
      let plusargs := key_values false (plusarg self) in
      args ++ ["PLUSARGS=" +:+ join " " plusargs]
    else args in
  ("make", args).

(** ** Vocabulary of the properties *)

(** The branch of the type dispatch a file takes. *)
Definition is_vlog (f : SourceFile) : bool :=
  startswith (file_type f) "verilogSource"
  || startswith (file_type f) "systemVerilogSource".

Definition is_vhdl (f : SourceFile) : bool :=
  startswith (file_type f) "vhdlSource".

Definition is_tcl (f : SourceFile) : bool :=
  bool_decide (file_type f = "tclSource").

Definition is_user (f : SourceFile) : bool :=
  bool_decide (file_type f = "user").

Definition recognized (f : SourceFile) : bool :=
  is_vlog f || is_vhdl f || is_tcl f || is_user f.

(** The files that get a compile command of their own in separate mode. *)
Definition eligible (f : SourceFile) : bool := is_vlog f || is_vhdl f.

(** The [File] object after the loop has visited it. *)
Definition visited (f : SourceFile) : SourceFile :=
  if name_truthy (logical_name f) then f else with_logical_name f "work".

(** The path as it is written into the build script. *)
Definition tcl_path (f : SourceFile) : string :=
  replace backslash slash (name f).

(** The arguments every per-file compile command ends with. *)
Definition compile_tail (f : SourceFile) : list string :=
  ["-quiet"; "-work"; lib_of f; tcl_path f].

Definition is_cmd (l : tcl_line) : bool :=
  match l with Cmd _ _ => true | _ => false end.

Definition is_vlib (l : tcl_line) : bool :=
  match l with Vlib _ => true | _ => false end.

Definition is_common_vlog (l : tcl_line) : bool :=
  match l with CommonVlog _ _ => true | _ => false end.

(** The names of the [vlib] directives of a script, in order. *)
Definition vlib_names (b : list tcl_line) : list string :=
  omap (fun l => match l with Vlib n => Some n | _ => None end) b.

(** The library a compile directive names after [-work]: the last but one
    argument of a per-file command, and of the aggregate command the one
    before the closing [-mfcu]. *)
Definition compiles_into (l : tcl_line) : option string :=
  match l with
  | Vlib _ => None
  | Cmd _ args | CommonVlog args _ =>
      match reverse args with
      | _ :: lib :: w :: _ =>
          if bool_decide (w = "-work") then Some lib else None
      | _ => None
      end
  end.

(** A list without its repeats, each element at its first position. *)
Fixpoint dedup_first (l : list string) : list string :=
  match l with
  | [] => []
  | x :: l' => x :: filter (fun y => y ≠ x) (dedup_first l')
  end.

(** [text] has the line [l]: between two newlines. *)
Definition has_line (text l : string) : Prop :=
  ∃ pre post, text = pre +:+ nl +:+ l +:+ nl +:+ post.

(** [text] has the lines [ls] one after the other: the first one starts
    after a newline, and each one ends with a newline. *)
Definition has_block (text : string) (ls : list string) : Prop :=
  ∃ pre post,
    text = pre +:+ nl +:+ file_text ((fun l => l +:+ nl) <$> ls) +:+ post.

(** *** What the loop body writes for one file *)

Definition vlog_args (self : Edatool) (vlog_include_dirs : list string)
    (f : SourceFile) : list string :=
  default [] (vlog_options (tool_options self))
  ++ define_flags (vlogdefine self)
  ++ (if is_sv f then ["-sv"] else [])
  ++ vlog_include_dirs.

Definition vcom_args (self : Edatool) (f : SourceFile) : list string :=
  (if endswith (file_type f) "-2008" then ["-2008"] else [])
  ++ default [] (vcom_options (tool_options self)).

Definition file_cmd (self : Edatool) (vlog_include_dirs : list string)
    (common_compilation : bool) (f : SourceFile) : list tcl_line :=
  if is_vlog f then
    if common_compilation then []
    else [Cmd "vlog" (vlog_args self vlog_include_dirs f ++ compile_tail f)]
  else if is_vhdl f then [Cmd "vcom" (vcom_args self f ++ compile_tail f)]
  else [].

(** The include-directory flags, [vlog_include_dirs] in the source. *)
Definition incdir_flags (incdirs : list string) : list string :=
  (fun d => "+incdir+" +:+ replace backslash slash d) <$> incdirs.

(** [common_compilation] in the source. *)
Definition is_common (self : Edatool) : bool :=
  bool_decide (compilation_mode (tool_options self) = Some "common").

(** The arguments of the aggregate command of common compilation. *)
Definition common_args (self : Edatool) (incdirs : list string)
    (has_sv : bool) : list string :=
  default [] (vlog_options (tool_options self))
  ++ define_flags (vlogdefine self)
  ++ (if has_sv then ["-sv"] else [])
  ++ incdir_flags incdirs
  ++ ["-quiet"; "-work"; "work"; "-mfcu"].

Definition declared_after (libs : list string) (f : SourceFile) : list string :=
  if bool_decide (lib_of f ∈ libs) then libs else libs ++ [lib_of f].

(** The writes of the loop to the build script, from the libraries declared
    so far. *)
Fixpoint loop_lines (self : Edatool) (vlog_include_dirs : list string)
    (common_compilation : bool) (libs : list string) (fs : list SourceFile)
    : list tcl_line :=
  match fs with
  | [] => []
  | f :: fs' =>
      (if bool_decide (lib_of f ∈ libs) then [] else [Vlib (lib_of f)])
      ++ file_cmd self vlog_include_dirs common_compilation f
      ++ loop_lines self vlog_include_dirs common_compilation
           (declared_after libs f) fs'
  end.


(** *** Vocabulary of the further properties *)

(** [c in s] for a one-character [c]. *)
Fixpoint contains_char (c : ascii) (s : string) : bool :=
  match s with
  | EmptyString => false
  | String d s' => Ascii.eqb d c || contains_char c s'
  end.

Definition is_vcom (l : tcl_line) : bool :=
  match l with Cmd c _ => bool_decide (c = "vcom") | _ => false end.

(** The [vlog] commands of a build script: per file, or the aggregate. *)
Definition is_vlog_line (l : tcl_line) : bool :=
  match l with
  | Vlib _ => false
  | Cmd c _ => bool_decide (c = "vlog")
  | CommonVlog _ _ => true
  end.

(** [self] with another value under the key [compilation_mode]. *)
Definition with_compilation_mode (self : Edatool) (mode : option string)
    : Edatool :=
  set_tool_options self
    {| compilation_mode := mode;
       vcom_options := vcom_options (tool_options self);
       vlog_options := vlog_options (tool_options self);
       vsim_options := vsim_options (tool_options self) |}.

(** The directive the loop writes for a Verilog or SystemVerilog file under
    separate compilation, and for a VHDL file. *)
Definition vlog_directive (self : Edatool) (incdirs : list string)
    (f : SourceFile) : tcl_line :=
  Cmd "vlog"
    (default [] (vlog_options (tool_options self))
     ++ define_flags (vlogdefine self)
     ++ (if startswith (file_type f) "systemVerilogSource" then ["-sv"] else [])
     ++ incdir_flags incdirs
     ++ ["-quiet"; "-work"; lib_of f; replace backslash slash (name f)]).

Definition vcom_directive (self : Edatool) (f : SourceFile) : tcl_line :=
  Cmd "vcom"
    ((if endswith (file_type f) "-2008" then ["-2008"] else [])
     ++ default [] (vcom_options (tool_options self))
     ++ ["-quiet"; "-work"; lib_of f; replace backslash slash (name f)]).

(** The arguments the aggregate command adds to [vlog_options]. *)
Definition common_suffix (self : Edatool) (incdirs : list string)
    (has_sv : bool) : list string :=
  define_flags (vlogdefine self)
  ++ (if has_sv then ["-sv"] else [])
  ++ incdir_flags incdirs
  ++ ["-quiet"; "-work"; "work"; "-mfcu"].

(** The characters [os.path] takes for separators of path components. *)
Definition separators (host : platform) : list ascii :=
  match host with
  | Posix => [slash]
  | Nt => [backslash; slash]
  end.

(** [s] has no separator. *)
Definition no_sep (host : platform) (s : string) : bool :=
  forallb (fun c => negb (contains_char c s)) (separators host).

(** [sepIndex] of [genericpath._splitext] on the host. *)
Definition sep_index (host : platform) (p : string) : Z :=
  match host with
  | Posix => rfind p slash
  | Nt => Z.max (rfind p backslash) (rfind p slash)
  end.

(** A sample [self]: every dictionary value is [v]. *)
Definition demo_tool (mode : option string) (v : value) : Edatool :=
  {| tool_options := Demo.options mode;
     vlogdefine := [("DEBUG", v)];
     vlogparam := [];
     generic := [("WIDTH", v)];
     plusarg := [("seed", v)];
     vpi_modules := [Demo.foo];
     toplevel := "tb" |}.

(** ** Properties *)

(** *** Strings and lists *)

Lemma string_app_assoc (s1 s2 s3 : string) :
  (s1 +:+ s2) +:+ s3 = s1 +:+ s2 +:+ s3.
Proof.
  induction s1 as [|a s1 IH]; [reflexivity|].
  change (String a ((s1 +:+ s2) +:+ s3) = String a (s1 +:+ s2 +:+ s3)).
  by rewrite IH.
Qed.

Lemma string_app_nil_r (s : string) : s +:+ EmptyString = s.
Proof.
  induction s as [|a s IH]; [reflexivity|].
  change (String a (s +:+ EmptyString) = String a s). by rewrite IH.
Qed.

Lemma file_text_app (a b : list string) :
  file_text (a ++ b) = file_text a +:+ file_text b.
Proof.
  induction a as [|x a IH]; [reflexivity|].
  change (x +:+ file_text (a ++ b) = (x +:+ file_text a) +:+ file_text b).
  by rewrite IH, string_app_assoc.
Qed.

Lemma filter_all {A} (P : A → Prop) `{!∀ x, Decision (P x)} (l : list A) :
  (∀ x, x ∈ l → P x) → filter P l = l.
Proof.
  induction l as [|x l IH]; intros Hall; [done|].
  rewrite filter_cons_True by (apply Hall; left).
  f_equal. apply IH. intros y Hy. apply Hall. by right.
Qed.

(** *** The type dispatch *)

Lemma is_vhdl_not_vlog f : is_vhdl f = true → is_vlog f = false.
Proof.
  unfold is_vhdl, is_vlog.
  destruct (file_type f) as [|a [|b s]]; simpl;
    rewrite ?andb_false_r; try done.
  intros [Ha Hb]%andb_true_iff.
  apply Ascii.eqb_eq in Ha as ->.
  apply andb_true_iff in Hb as [Hb _].
  apply Ascii.eqb_eq in Hb as ->. done.
Qed.

Lemma is_sv_is_vlog f : is_sv f = true → is_vlog f = true.
Proof. unfold is_sv, is_vlog. intros ->. apply orb_true_r. Qed.

Lemma is_tcl_not_eligible f : is_tcl f = true → eligible f = false.
Proof.
  unfold is_tcl, eligible, is_vlog, is_vhdl.
  intros ->%bool_decide_eq_true. done.
Qed.

Lemma is_user_not_eligible f : is_user f = true → eligible f = false.
Proof.
  unfold is_user, eligible, is_vlog, is_vhdl.
  intros ->%bool_decide_eq_true. done.
Qed.

Lemma unrecognized_not_eligible f : recognized f = false → eligible f = false.
Proof.
  unfold recognized, eligible.
  destruct (is_vlog f), (is_vhdl f); done.
Qed.

(** *** The [File] object after its visit *)

Lemma visited_name f : name (visited f) = name f.
Proof. unfold visited. by destruct (name_truthy _). Qed.

Lemma visited_file_type f : file_type (visited f) = file_type f.
Proof. unfold visited. by destruct (name_truthy _). Qed.

Lemma visited_logical_name f :
  logical_name (visited f) =
  if name_truthy (logical_name f) then logical_name f else Some "work".
Proof. unfold visited. by destruct (name_truthy _). Qed.

Lemma visited_lib f :
  default EmptyString (logical_name (visited f)) = lib_of f.
Proof. unfold visited, lib_of. by destruct (name_truthy _). Qed.


(** *** One iteration of the loop *)

Section Step.
Variable self : Edatool.
Variable incs : list string.
Variable common : bool.

Local Abbreviation step := (process_file self incs common).

Lemma visited_alt f :
  (if negb (name_truthy (logical_name f)) then with_logical_name f "work" else f)
  = visited f.
Proof. unfold visited. by destruct (name_truthy _). Qed.

Lemma process_file_unfold st f :
  step st f =
  let g := visited f in
  let st1 := declare_lib st (lib_of f) in
  if is_vlog f then
    finish_file common (add_vlog_file st1 g) (Some "vlog") (vlog_args self incs f) g
  else if is_vhdl f then
    finish_file common st1 (Some "vcom") (vcom_args self f) g
  else if is_tcl f then
    finish_file common (write_main st1 ("do " +:+ name f +:+ nl)) None (st_args st1) g
  else if is_user f then
    finish_file common st1 None (st_args st1) g
  else
    finish_file common (warn st1 (unknown_type_msg f)) None (st_args st1) g.
Proof.
  unfold process_file. cbv zeta.
  rewrite visited_alt, visited_lib, visited_file_type.
  unfold is_vlog, is_vhdl, is_tcl, is_user, vlog_args, vcom_args, is_sv,
    unknown_type_msg.
  rewrite visited_name, visited_file_type.
  destruct (startswith (file_type f) "verilogSource" || _).
  { f_equal. destruct (startswith (file_type f) "systemVerilogSource");
      simpl; by rewrite <- ?app_assoc. }
  destruct (startswith (file_type f) "vhdlSource").
  { by destruct (endswith (file_type f) "-87"), (endswith (file_type f) "-93"), (endswith (file_type f) "-2008"). }
  done.
Qed.

Ltac step_cases st f :=
  rewrite process_file_unfold; cbv zeta;
  unfold finish_file, declare_lib, declared_after, file_cmd, compile_tail,
    tcl_path, add_vlog_file, write_main, warn, cmd_truthy;
  destruct (is_vlog f), (is_vhdl f), (is_tcl f), (is_user f), common,
    (bool_decide (lib_of f ∈ st_libs st)); simpl;
  rewrite ?visited_lib, ?visited_name, ?app_nil_r, <- ?app_assoc; try done.

Lemma step_libs st f :
  st_libs (step st f) = declared_after (st_libs st) f.
Proof. step_cases st f. Qed.

Lemma step_files st f :
  st_files (step st f) = st_files st ++ [visited f].
Proof. step_cases st f. Qed.

Lemma step_build st f :
  st_build (step st f) =
  st_build st
  ++ (if bool_decide (lib_of f ∈ st_libs st) then [] else [Vlib (lib_of f)])
  ++ file_cmd self incs common f.
Proof. step_cases st f. Qed.

Lemma step_vlog_files st f :
  st_vlog_files (step st f) =
  st_vlog_files st ++ (if is_vlog f then [visited f] else []).
Proof. step_cases st f. Qed.

Lemma step_main st f :
  st_main (step st f) =
  st_main st ++ (if is_tcl f && negb (eligible f) then ["do " +:+ name f +:+ nl] else []).
Proof. unfold eligible. step_cases st f. Qed.

Lemma step_log st f :
  st_log (step st f) =
  st_log st ++ (if recognized f then [] else [unknown_type_msg f]).
Proof. unfold recognized. step_cases st f. Qed.

End Step.

(** *** The whole loop *)

Section Loop.

Variable self : Edatool.
Variable incs : list string.
Variable common : bool.

Local Abbreviation run_loop := (foldl (process_file self incs common)).

Lemma loop_build fs st :
  st_build (run_loop st fs) =
  st_build st ++ loop_lines self incs common (st_libs st) fs.
Proof.
  revert st. induction fs as [|f fs IH]; intros st; simpl.
  - by rewrite app_nil_r.
  - rewrite IH, step_build, step_libs. by rewrite <- !app_assoc.
Qed.

Lemma loop_files fs st :
  st_files (run_loop st fs) = st_files st ++ (visited <$> fs).
Proof.
  revert st. induction fs as [|f fs IH]; intros st; simpl.
  - by rewrite app_nil_r.
  - rewrite IH, step_files. by rewrite <- app_assoc.
Qed.

Lemma loop_vlog_files fs st :
  st_vlog_files (run_loop st fs) =
  st_vlog_files st ++ (visited <$> filter is_vlog fs).
Proof.
  revert st. induction fs as [|f fs IH]; intros st; simpl.
  - by rewrite app_nil_r.
  - rewrite IH, step_vlog_files, filter_cons.
    destruct (is_vlog f); simpl; by rewrite <- ?app_assoc, ?app_nil_r.
Qed.

Lemma loop_main fs st :
  st_main (run_loop st fs) =
  st_main st ++ ((fun f => "do " +:+ name f +:+ nl) <$> filter is_tcl fs).
Proof.
  revert st. induction fs as [|f fs IH]; intros st; simpl.
  - by rewrite app_nil_r.
  - rewrite IH, step_main, filter_cons.
    destruct (is_tcl f) eqn:Ht; simpl.
    + rewrite (is_tcl_not_eligible _ Ht). simpl. by rewrite <- app_assoc.
    + by rewrite app_nil_r.
Qed.

Lemma loop_log fs st :
  st_log (run_loop st fs) =
  st_log st ++ (unknown_type_msg <$> filter (fun f => negb (recognized f)) fs).
Proof.
  revert st. induction fs as [|f fs IH]; intros st; simpl.
  - by rewrite app_nil_r.
  - rewrite IH, step_log, filter_cons.
    destruct (recognized f); simpl; by rewrite <- ?app_assoc, ?app_nil_r.
Qed.

End Loop.

(** *** The lines the loop writes *)

Section LoopLines.

Variable self : Edatool.
Variable incs : list string.
Variable common : bool.

Local Abbreviation lines := (loop_lines self incs common).
Local Abbreviation cmd_of := (file_cmd self incs common).

Lemma file_cmd_is_cmd f d : d ∈ cmd_of f → is_cmd d = true.
Proof.
  unfold file_cmd.
  destruct (is_vlog f), (is_vhdl f), common; simpl;
    rewrite ?list_elem_of_singleton; try (by intros ->);
    by intros ?%elem_of_nil.
Qed.

Lemma file_cmd_eligible f d : d ∈ cmd_of f → eligible f = true.
Proof.
  unfold file_cmd, eligible.
  destruct (is_vlog f), (is_vhdl f); simpl; try done;
    by intros ?%elem_of_nil.
Qed.

Lemma compiles_into_tail c pre f :
  compiles_into (Cmd c (pre ++ compile_tail f)) = Some (lib_of f).
Proof.
  unfold compiles_into, compile_tail. rewrite reverse_app. done.
Qed.

Lemma file_cmd_compiles_into f d :
  d ∈ cmd_of f → compiles_into d = Some (lib_of f).
Proof.
  unfold file_cmd.
  destruct (is_vlog f), (is_vhdl f), common; simpl; intros Hd;
    try (by apply elem_of_nil in Hd);
    apply list_elem_of_singleton in Hd as ->; apply compiles_into_tail.
Qed.

Lemma loop_lines_cmds libs fs :
  filter is_cmd (lines libs fs) = fs ≫= cmd_of.
Proof.
  revert libs. induction fs as [|f fs IH]; intros libs; simpl; [done|].
  rewrite !filter_app, IH.
  assert (filter is_cmd
            (if bool_decide (lib_of f ∈ libs) then [] else [Vlib (lib_of f)])
          = []) as -> by (by case_bool_decide).
  simpl. f_equal. apply filter_all. intros d Hd.
  by rewrite (file_cmd_is_cmd f d Hd).
Qed.

Lemma loop_lines_elem libs fs d :
  d ∈ lines libs fs →
  (∃ n, d = Vlib n ∧ (n ∉ libs) ∧ n ∈ (lib_of <$> fs))
  ∨ (∃ f, f ∈ fs ∧ d ∈ cmd_of f).
Proof.
  revert libs. induction fs as [|f fs IH]; intros libs; simpl; [set_solver|].
  rewrite !elem_of_app. intros [Hd|[Hd|Hd]].
  - left. case_bool_decide as Hin; [set_solver|].
    apply list_elem_of_singleton in Hd as ->. set_solver.
  - right. set_solver.
  - apply IH in Hd as [(n & -> & Hn & Hfs)|(g & Hg & Hd)].
    + left. exists n. split_and!; [done| |set_solver].
      unfold declared_after in Hn. case_bool_decide; set_solver.
    + right. set_solver.
Qed.

Lemma loop_lines_vlib_new libs fs n : Vlib n ∈ lines libs fs → n ∉ libs.
Proof.
  intros [(m & [= ->] & Hm & _)|(f & _ & Hd)]%loop_lines_elem; [done|].
  by apply file_cmd_is_cmd in Hd.
Qed.

Lemma loop_lines_no_common libs fs d :
  d ∈ lines libs fs → is_common_vlog d = false.
Proof.
  intros [(m & -> & _)|(f & _ & Hd)]%loop_lines_elem; [done|].
  apply file_cmd_is_cmd in Hd. by destruct d.
Qed.

Lemma loop_lines_vlibs libs fs :
  vlib_names (lines libs fs) =
  filter (fun n => n ∉ libs) (dedup_first (lib_of <$> fs)).
Proof.
  revert libs. induction fs as [|f fs IH]; intros libs; simpl; [done|].
  unfold vlib_names in *. rewrite !omap_app, IH.
  assert (omap (λ l, match l with Vlib n => Some n | _ => None end) (cmd_of f)
          = []) as ->.
  { unfold file_cmd. by repeat case_match. }
  simpl. rewrite filter_cons, list_filter_filter.
  unfold declared_after. case_bool_decide as Hin.
  - rewrite decide_False by tauto. simpl.
    apply list_filter_iff. intros n. split; [|tauto].
    intros Hn. split; [done|]. by intros ->.
  - rewrite decide_True by done. simpl. f_equal.
    apply list_filter_iff. intros n. set_solver.
Qed.

(** The [vlib] of a library that is still to be declared is written once,
    and nothing before it compiles into that library. *)
Lemma loop_lines_vlib_split libs fs n :
  n ∈ (lib_of <$> fs) → n ∉ libs →
  ∃ pre post,
    lines libs fs = pre ++ Vlib n :: post
    ∧ (Vlib n ∉ pre) ∧ (Vlib n ∉ post)
    ∧ ∀ d, d ∈ pre → compiles_into d ≠ Some n.
Proof.
  revert libs. induction fs as [|f fs IH]; intros libs Hn Hlibs; simpl.
  { set_solver. }
  destruct (decide (n = lib_of f)) as [->|Hne].
  - rewrite bool_decide_eq_false_2 by done.
    exists [], (cmd_of f ++ lines (declared_after libs f) fs).
    split_and!; [done|set_solver| |set_solver].
    rewrite elem_of_app. intros [Hd|Hd].
    + by apply file_cmd_is_cmd in Hd.
    + apply loop_lines_vlib_new in Hd. apply Hd.
      unfold declared_after. rewrite bool_decide_eq_false_2 by done.
      set_solver.
  - destruct (IH (declared_after libs f)) as (pre & post & Heq & Hpre & Hpost & Hc).
    { set_solver. }
    { unfold declared_after. case_bool_decide; set_solver. }
    exists ((if bool_decide (lib_of f ∈ libs) then [] else [Vlib (lib_of f)])
            ++ cmd_of f ++ pre), post.
    split_and!.
    + rewrite Heq. by rewrite <- !app_assoc.
    + rewrite !elem_of_app. intros [Hd|[Hd|Hd]]; [| |done].
      * case_bool_decide; set_solver.
      * by apply file_cmd_is_cmd in Hd.
    + done.
    + intros d. rewrite !elem_of_app. intros [Hd|[Hd|Hd]]; [| |by apply Hc].
      * case_bool_decide; [set_solver|].
        by apply list_elem_of_singleton in Hd as ->.
      * rewrite (file_cmd_compiles_into f d Hd). congruence.
Qed.

End LoopLines.

(** *** The whole of [_write_build_rtl_tcl_file] *)

Section WriteBuildRtl.

Variable self : Edatool.
Variable src_files : list SourceFile.
Variable incdirs : list string.
Variable tcl_main : list string.

Local Abbreviation result :=
  (write_build_rtl_tcl_file self src_files incdirs tcl_main).

Lemma existsb_sv_vlog_files fs :
  existsb is_sv (visited <$> filter is_vlog fs) = existsb is_sv fs.
Proof.
  induction fs as [|f fs IH]; [done|].
  rewrite filter_cons. simpl. rewrite <- IH.
  destruct (is_vlog f) eqn:Hv; simpl.
  - unfold is_sv at 1. by rewrite visited_file_type.
  - destruct (is_sv f) eqn:Hsv; [|done].
    apply is_sv_is_vlog in Hsv. congruence.
Qed.

Lemma build_rtl_eq :
  build_rtl result =
  loop_lines self (incdir_flags incdirs) (is_common self) [] src_files
  ++ (if is_common self
      then [CommonVlog (common_args self incdirs (existsb is_sv src_files))
              (tcl_path <$> filter is_vlog src_files)]
      else []).
Proof.
  unfold write_build_rtl_tcl_file. cbv zeta.
  fold (incdir_flags incdirs). fold (is_common self).
  destruct (is_common self); simpl; rewrite loop_build; simpl.
  - f_equal. rewrite loop_vlog_files. simpl.
    rewrite existsb_sv_vlog_files. unfold common_args. f_equal. f_equal.
    + destruct (existsb is_sv src_files); simpl; by rewrite <- ?app_assoc.
    + rewrite <- list_fmap_compose. apply list_fmap_ext.
      intros _ f _. simpl. by rewrite visited_name.
  - by rewrite app_nil_r.
Qed.

Lemma files_after_eq : files_after result = visited <$> src_files.
Proof.
  unfold write_build_rtl_tcl_file. cbv zeta.
  destruct (bool_decide _); simpl; by rewrite loop_files.
Qed.

Lemma warnings_eq :
  warnings result =
  unknown_type_msg <$> filter (fun f => negb (recognized f)) src_files.
Proof.
  unfold write_build_rtl_tcl_file. cbv zeta.
  destruct (bool_decide _); simpl; by rewrite loop_log.
Qed.

Lemma main_tcl_eq :
  main_tcl result =
  tcl_main ++ ((fun f => "do " +:+ name f +:+ nl) <$> filter is_tcl src_files).
Proof.
  unfold write_build_rtl_tcl_file. cbv zeta.
  destruct (bool_decide _); simpl; by rewrite loop_main.
Qed.

End WriteBuildRtl.

(** *** The compile commands of a file list *)

Section Commands.

Variable self : Edatool.
Variable incs : list string.

Lemma cmds_separate fs :
  Forall2
    (fun f d => ∃ pre,
       d = Cmd (if is_vlog f then "vlog" else "vcom") (pre ++ compile_tail f))
    (filter eligible fs) (fs ≫= file_cmd self incs false).
Proof.
  induction fs as [|f fs IH]; [constructor|].
  change ((f :: fs) ≫= file_cmd self incs false)
    with (file_cmd self incs false f ++ (fs ≫= file_cmd self incs false)).
  unfold file_cmd at 1.
  destruct (is_vlog f) eqn:Hv; [|destruct (is_vhdl f) eqn:Hh].
  - rewrite filter_cons_True by (unfold eligible; by rewrite Hv).
    constructor; [|done]. rewrite Hv. eauto.
  - rewrite filter_cons_True by (unfold eligible; by rewrite Hv, Hh).
    constructor; [|done]. rewrite Hv. eauto.
  - rewrite filter_cons_False by (unfold eligible; rewrite Hv, Hh; simpl; tauto).
    done.
Qed.

Lemma cmds_common fs :
  Forall2 (fun f d => ∃ pre, d = Cmd "vcom" (pre ++ compile_tail f))
    (filter is_vhdl fs) (fs ≫= file_cmd self incs true).
Proof.
  induction fs as [|f fs IH]; [constructor|].
  change ((f :: fs) ≫= file_cmd self incs true)
    with (file_cmd self incs true f ++ (fs ≫= file_cmd self incs true)).
  unfold file_cmd at 1.
  destruct (is_vhdl f) eqn:Hh.
  - rewrite filter_cons_True by (by rewrite Hh).
    rewrite (is_vhdl_not_vlog f Hh). constructor; eauto.
  - rewrite filter_cons_False by (rewrite Hh; simpl; tauto).
    by destruct (is_vlog f).
Qed.

Lemma cmds_common_vcom fs c args :
  Cmd c args ∈ fs ≫= file_cmd self incs true → c = "vcom".
Proof.
  rewrite list_elem_of_bind. intros (f & Hd & _). revert Hd.
  unfold file_cmd. destruct (is_vlog f), (is_vhdl f); simpl;
    rewrite ?list_elem_of_singleton; try (by intros ?%elem_of_nil).
  by intros [= -> _].
Qed.

End Commands.

Lemma is_common_true self :
  compilation_mode (tool_options self) = Some "common" → is_common self = true.
Proof. intros H. unfold is_common. by rewrite bool_decide_eq_true. Qed.

Lemma is_common_false self :
  compilation_mode (tool_options self) ≠ Some "common" → is_common self = false.
Proof. intros H. unfold is_common. by rewrite bool_decide_eq_false. Qed.

(** ** The claims about [edalize_build_rtl.tcl] *)

(** C1. The claim: a VHDL file gets [vcom] with the revision flag of its
    type suffix ([-87], [-93], [-2008], else none), followed by
    [vcom_options].  The loop body tests the three suffixes with three
    separate [if]s, and the [else] of the last one resets [args]: for a file
    of type [vhdlSource-87] or [vhdlSource-93] the directive carries no
    revision flag, only [vhdlSource-2008] keeps its own. *)
Theorem C1_vhdl_87_93_flag_lost self incdirs tcl_main nm :
  let vcom_opts := default [] (vcom_options (tool_options self)) in
  let tail := ["-quiet"; "-work"; "work"; replace backslash slash nm] in
  take 2 (build_rtl (write_build_rtl_tcl_file self
            [mkSourceFile nm "vhdlSource-87" None] incdirs tcl_main))
  = [Vlib "work"; Cmd "vcom" (vcom_opts ++ tail)]
  ∧ take 2 (build_rtl (write_build_rtl_tcl_file self
              [mkSourceFile nm "vhdlSource-93" None] incdirs tcl_main))
    = [Vlib "work"; Cmd "vcom" (vcom_opts ++ tail)]
  ∧ take 2 (build_rtl (write_build_rtl_tcl_file self
              [mkSourceFile nm "vhdlSource-2008" None] incdirs tcl_main))
    = [Vlib "work"; Cmd "vcom" (["-2008"] ++ vcom_opts ++ tail)].
Proof.
  cbv zeta. rewrite !build_rtl_eq. split_and!; reflexivity.
Qed.

(** C2. Under common compilation the build script is the lines of the loop
    followed by one aggregate [vlog]: it names every Verilog and
    SystemVerilog file, carries the define flags and include directories,
    [-sv] exactly when some file is SystemVerilog, [-quiet], [-work work] and
    [-mfcu]; the loop writes no [vlog] of its own, and one [vcom] per VHDL
    file. *)
Theorem C2_common_compilation self src_files incdirs tcl_main :
  compilation_mode (tool_options self) = Some "common" →
  ∃ body,
    build_rtl (write_build_rtl_tcl_file self src_files incdirs tcl_main)
    = body ++
      [CommonVlog
         (default [] (vlog_options (tool_options self))
          ++ define_flags (vlogdefine self)
          ++ (if existsb is_sv src_files then ["-sv"] else [])
          ++ incdir_flags incdirs
          ++ ["-quiet"; "-work"; "work"; "-mfcu"])
         (tcl_path <$> filter is_vlog src_files)]
    ∧ (∀ d, d ∈ body → is_common_vlog d = false)
    ∧ (∀ c args, Cmd c args ∈ body → c = "vcom")
    ∧ Forall2 (fun f d => ∃ pre, d = Cmd "vcom" (pre ++ compile_tail f))
        (filter is_vhdl src_files) (filter is_cmd body).
Proof.
  intros Hc%is_common_true.
  exists (loop_lines self (incdir_flags incdirs) true [] src_files).
  rewrite build_rtl_eq, Hc. split_and!.
  - done.
  - apply loop_lines_no_common.
  - intros c args Hd. apply (cmds_common_vcom self (incdir_flags incdirs) src_files c args).
    rewrite <- (loop_lines_cmds _ _ _ []). apply list_elem_of_filter. by split.
  - rewrite loop_lines_cmds. apply cmds_common.
Qed.

Lemma vlib_once_before_use self src_files incdirs tcl_main n :
  n ∈ (lib_of <$> src_files) →
  ∃ pre post,
    build_rtl (write_build_rtl_tcl_file self src_files incdirs tcl_main)
    = pre ++ Vlib n :: post
    ∧ (Vlib n ∉ pre) ∧ (Vlib n ∉ post)
    ∧ ∀ d, d ∈ pre → compiles_into d ≠ Some n.
Proof.
  intros Hn. rewrite build_rtl_eq.
  destruct (loop_lines_vlib_split self (incdir_flags incdirs)
              (is_common self) [] src_files n Hn)
    as (pre & post & Heq & Hpre & Hpost & Hc); [apply not_elem_of_nil|].
  exists pre, (post ++ (if is_common self
    then [CommonVlog (common_args self incdirs (existsb is_sv src_files))
            (tcl_path <$> filter is_vlog src_files)]
    else [])).
  split_and!; [|done| |done].
  - rewrite Heq. by rewrite <- app_assoc.
  - rewrite elem_of_app. intros [?|Hd]; [done|].
    destruct (is_common self); [|by apply elem_of_nil in Hd].
    by apply list_elem_of_singleton in Hd.
Qed.

(** C3. For every library name of the file list, the build script has its
    [vlib] exactly once, no directive before it compiles into that library,
    and the [vlib] directives come in the order in which the names are first
    seen. *)
Theorem C3_vlib_once_before_use self src_files incdirs tcl_main n :
  n ∈ (lib_of <$> src_files) →
  let b := build_rtl (write_build_rtl_tcl_file self src_files incdirs tcl_main) in
  (∃ pre post,
      b = pre ++ Vlib n :: post
      ∧ (Vlib n ∉ pre) ∧ (Vlib n ∉ post)
      ∧ ∀ d, d ∈ pre → compiles_into d ≠ Some n)
  ∧ vlib_names b = dedup_first (lib_of <$> src_files).
Proof.
  intros Hn b. subst b. split.
  { by apply vlib_once_before_use. }
  rewrite build_rtl_eq.
  unfold vlib_names. rewrite omap_app.
  fold (vlib_names (loop_lines self (incdir_flags incdirs) (is_common self)
                      [] src_files)).
  rewrite loop_lines_vlibs.
  assert (omap (λ l, match l with Vlib n => Some n | _ => None end)
            (if is_common self
             then [CommonVlog (common_args self incdirs (existsb is_sv src_files))
                     (tcl_path <$> filter is_vlog src_files)]
             else []) = []) as -> by (by destruct (is_common self)).
  rewrite app_nil_r. apply filter_all. intros ? _. apply not_elem_of_nil.
Qed.

(** C5. Under separate compilation the per-file compile directives are as
    many as the Verilog, SystemVerilog and VHDL files, one for each in order
    ([vlog] or [vcom]), each ending with [-quiet], [-work], the library of
    the file and its path with forward slashes; there is no aggregate
    command. *)
Theorem C5_separate_compilation self src_files incdirs tcl_main :
  compilation_mode (tool_options self) ≠ Some "common" →
  let b := build_rtl (write_build_rtl_tcl_file self src_files incdirs tcl_main) in
  length (filter is_cmd b) = length (filter eligible src_files)
  ∧ Forall2
      (fun f d => ∃ pre,
         d = Cmd (if is_vlog f then "vlog" else "vcom")
               (pre ++ ["-quiet"; "-work"; lib_of f;
                        replace backslash slash (name f)]))
      (filter eligible src_files) (filter is_cmd b)
  ∧ (∀ d, d ∈ b → is_common_vlog d = false).
Proof.
  intros Hc%is_common_false b. subst b.
  rewrite build_rtl_eq, Hc, app_nil_r, loop_lines_cmds.
  pose proof (cmds_separate self (incdir_flags incdirs) src_files) as HF.
  split_and!.
  - symmetry. by eapply Forall2_length.
  - exact HF.
  - apply loop_lines_no_common.
Qed.

Lemma compiles_into_common_args self incdirs has_sv files :
  compiles_into (CommonVlog (common_args self incdirs has_sv) files)
  = Some "work".
Proof.
  unfold compiles_into, common_args. by rewrite !reverse_app.
Qed.

(** C9. Every file of the list has the [vlib] of its library in the build
    script, whatever its type; when no Verilog, SystemVerilog or VHDL file
    uses that library (and it is not the library [work] of the aggregate
    command), no directive of the script compiles into it. *)
Theorem C9_vlib_for_every_file self src_files incdirs tcl_main f :
  f ∈ src_files →
  let b := build_rtl (write_build_rtl_tcl_file self src_files incdirs tcl_main) in
  Vlib (lib_of f) ∈ b
  ∧ ((∀ g, g ∈ src_files → lib_of g = lib_of f → eligible g = false) →
     lib_of f ≠ "work" →
     ∀ d, d ∈ b → compiles_into d ≠ Some (lib_of f)).
Proof.
  intros Hf b. split.
  - destruct (vlib_once_before_use self src_files incdirs tcl_main (lib_of f))
      as (pre & post & Heq & _); [by apply list_elem_of_fmap_2|].
    subst b. rewrite Heq. apply elem_of_app. right. left.
  - intros Hne Hw d. subst b. rewrite build_rtl_eq, elem_of_app.
    intros [Hd|Hd].
    + apply loop_lines_elem in Hd as [(n & -> & _)|(g & Hg & Hd)]; [done|].
      rewrite (file_cmd_compiles_into _ _ _ g d Hd). intros [= Heq].
      apply file_cmd_eligible in Hd. rewrite (Hne g Hg Heq) in Hd. done.
    + destruct (is_common self); [|by apply elem_of_nil in Hd].
      apply list_elem_of_singleton in Hd as ->.
      rewrite compiles_into_common_args. congruence.
Qed.

(** C10. Under common compilation the build script always ends with the
    aggregate [vlog]; when the list has no Verilog or SystemVerilog file the
    command names no source file, and the text of the script ends with
    [vlog], its arguments and a blank. *)
Theorem C10_common_vlog_unconditional self src_files incdirs tcl_main :
  compilation_mode (tool_options self) = Some "common" →
  let b := build_rtl (write_build_rtl_tcl_file self src_files incdirs tcl_main) in
  ∃ body args,
    b = body ++ [CommonVlog args (tcl_path <$> filter is_vlog src_files)]
    ∧ last args = Some "-mfcu"
    ∧ ((∀ f, f ∈ src_files → is_vlog f = false) →
       b = body ++ [CommonVlog args []]
       ∧ build_rtl_text b
         = build_rtl_text body +:+ "vlog " +:+ join " " args +:+ " ").
Proof.
  intros Hc%is_common_true b. subst b.
  exists (loop_lines self (incdir_flags incdirs) true [] src_files),
    (common_args self incdirs (existsb is_sv src_files)).
  rewrite build_rtl_eq, Hc. split_and!.
  - done.
  - unfold common_args. rewrite !app_assoc.
    change ["-quiet"; "-work"; "work"; "-mfcu"]
      with (["-quiet"; "-work"; "work"] ++ ["-mfcu"]).
    rewrite app_assoc. apply last_snoc.
  - intros Hno.
    assert (filter is_vlog src_files = []) as ->.
    { induction src_files as [|f fs IH]; [done|].
      rewrite filter_cons_False.
      - apply IH. intros g Hg. apply Hno. by right.
      - rewrite Hno by left. simpl. tauto. }
    split; [done|].
    unfold build_rtl_text. rewrite fmap_app, file_text_app. simpl.
    by rewrite string_app_nil_r, string_app_nil_r.
Qed.

(** *** Files without a compile command *)

Lemma loop_lines_not_vlib self incs common libs fs :
  filter (fun d => negb (is_vlib d)) (loop_lines self incs common libs fs)
  = fs ≫= file_cmd self incs common.
Proof.
  revert libs. induction fs as [|f fs IH]; intros libs; simpl; [done|].
  rewrite !filter_app, IH.
  assert (filter (fun d => negb (is_vlib d))
            (if bool_decide (lib_of f ∈ libs) then [] else [Vlib (lib_of f)])
          = []) as -> by (by case_bool_decide).
  simpl. f_equal. apply filter_all. intros d Hd.
  apply file_cmd_is_cmd in Hd. by destruct d.
Qed.

Lemma file_cmd_not_eligible self incs common f :
  eligible f = false → file_cmd self incs common f = [].
Proof.
  unfold eligible, file_cmd. by destruct (is_vlog f), (is_vhdl f).
Qed.

Lemma filter_drop_one {A} (P : A → Prop) `{!∀ x, Decision (P x)}
    (l1 l2 : list A) (x : A) :
  ¬ P x → filter P (l1 ++ x :: l2) = filter P (l1 ++ l2).
Proof.
  intros Hx. by rewrite !filter_app, filter_cons_False.
Qed.

Lemma existsb_drop_one {A} (p : A → bool) (l1 l2 : list A) (x : A) :
  p x = false → existsb p (l1 ++ x :: l2) = existsb p (l1 ++ l2).
Proof.
  intros Hx. rewrite !existsb_app. simpl. by rewrite Hx.
Qed.

Lemma bind_drop_one {A B} (g : A → list B) (l1 l2 : list A) (x : A) :
  g x = [] → (l1 ++ x :: l2) ≫= g = (l1 ++ l2) ≫= g.
Proof.
  intros Hx. rewrite !bind_app, bind_cons, Hx. done.
Qed.

(** The compile directives and the [do] entries of the scripts do not change
    when a file without compile command that is no Tcl script is taken out
    of the file list. *)
Lemma skipped_file_no_lines self l1 f l2 incdirs tcl_main :
  eligible f = false → is_tcl f = false →
  filter (fun d => negb (is_vlib d))
    (build_rtl (write_build_rtl_tcl_file self (l1 ++ f :: l2) incdirs tcl_main))
  = filter (fun d => negb (is_vlib d))
      (build_rtl (write_build_rtl_tcl_file self (l1 ++ l2) incdirs tcl_main))
  ∧ main_tcl (write_build_rtl_tcl_file self (l1 ++ f :: l2) incdirs tcl_main)
    = main_tcl (write_build_rtl_tcl_file self (l1 ++ l2) incdirs tcl_main).
Proof.
  intros He Ht. split.
  - assert (is_vlog f = false) as Hv.
    { unfold eligible in He. by destruct (is_vlog f). }
    assert (is_sv f = false) as Hsv.
    { destruct (is_sv f) eqn:Hsv; [|done].
      apply is_sv_is_vlog in Hsv. congruence. }
    rewrite !build_rtl_eq.
    rewrite (existsb_drop_one is_sv l1 l2 f Hsv).
    rewrite (filter_drop_one is_vlog l1 l2 f) by (rewrite Hv; simpl; tauto).
    rewrite !(filter_app _ (loop_lines _ _ _ _ _)), !loop_lines_not_vlib.
    rewrite (bind_drop_one _ l1 l2 f) by by apply file_cmd_not_eligible.
    done.
  - rewrite !main_tcl_eq.
    rewrite (filter_drop_one is_tcl l1 l2 f) by (rewrite Ht; simpl; tauto).
    done.
Qed.

(** C4 (amended). A file of unrecognized type gets no compile directive and
    no [do] entry: the only line its iteration can write is the [vlib] of
    its library, when no earlier file declared it; and its iteration logs
    one warning, which names the file and its type.  A file of type [user]
    is skipped the same way, without a warning.  Over the whole list the
    warnings are those of the unrecognized files, one each, in order, and
    taking such a file out of the list changes neither the compile
    directives nor the bootstrap script. *)
Theorem C4_unrecognized_file_skipped self incs common st f
    l1 l2 incdirs tcl_main :
  (recognized f = false ∨ file_type f = "user") →
  let st' := process_file self incs common st f in
  st_build st'
  = st_build st
    ++ (if bool_decide (lib_of f ∈ st_libs st) then [] else [Vlib (lib_of f)])
  ∧ st_main st' = st_main st
  ∧ st_vlog_files st' = st_vlog_files st
  ∧ st_log st'
    = st_log st
      ++ (if recognized f then []
          else [name f +:+ " has unknown file type '" +:+ file_type f +:+ "'"])
  ∧ (file_type f = "user" → recognized f = true)
  ∧ warnings (write_build_rtl_tcl_file self (l1 ++ f :: l2) incdirs tcl_main)
    = (fun g => name g +:+ " has unknown file type '" +:+ file_type g +:+ "'")
      <$> filter (fun g => negb (recognized g)) (l1 ++ f :: l2)
  ∧ filter (fun d => negb (is_vlib d))
      (build_rtl (write_build_rtl_tcl_file self (l1 ++ f :: l2) incdirs tcl_main))
    = filter (fun d => negb (is_vlib d))
        (build_rtl (write_build_rtl_tcl_file self (l1 ++ l2) incdirs tcl_main))
  ∧ main_tcl (write_build_rtl_tcl_file self (l1 ++ f :: l2) incdirs tcl_main)
    = main_tcl (write_build_rtl_tcl_file self (l1 ++ l2) incdirs tcl_main).
Proof.
  intros Hf st'. subst st'.
  assert (eligible f = false ∧ is_tcl f = false) as [He Ht].
  { destruct Hf as [Hf|Hf].
    - split; [by apply unrecognized_not_eligible|].
      unfold recognized in Hf. by destruct (is_vlog f), (is_vhdl f), (is_tcl f).
    - unfold eligible, is_vlog, is_vhdl, is_tcl. by rewrite Hf. }
  assert (is_vlog f = false) as Hv.
  { unfold eligible in He. by destruct (is_vlog f). }
  rewrite step_build, step_main, step_vlog_files, step_log, warnings_eq.
  rewrite (file_cmd_not_eligible _ _ _ _ He), Ht, Hv, !app_nil_r.
  split_and!; try done.
  - intros Hu. unfold recognized, is_user. rewrite Hu.
    by rewrite !orb_true_r.
  - by apply skipped_file_no_lines.
  - by apply skipped_file_no_lines.
Qed.

(** C8 (amended). Generation leaves the name and the type of every [File]
    object as supplied, and its logical name when it has one; a logical
    name that is missing or empty is overwritten with [work] in the object
    itself. *)
Theorem C8_only_missing_logical_name_set self src_files incdirs :
  Forall2
    (fun f f' =>
       name f' = name f
       ∧ file_type f' = file_type f
       ∧ logical_name f'
         = if name_truthy (logical_name f) then logical_name f
           else Some "work")
    src_files (src_files_after (configure_main self src_files incdirs)).
Proof.
  unfold configure_main. simpl. rewrite files_after_eq.
  apply Forall2_fmap_r, Forall_Forall2_diag, Forall_forall. intros f _.
  split_and!;
    [apply visited_name|apply visited_file_type|apply visited_logical_name].
Qed.

(** ** The Makefile *)

Lemma has_line_lines (ls : list string) (l : string) :
  l ∈ ls →
  ∀ p, ∃ pre post,
    p +:+ nl +:+ file_text ((fun x => x +:+ nl) <$> ls)
    = pre +:+ nl +:+ l +:+ nl +:+ post.
Proof.
  induction ls as [|x ls IH]; intros Hl p.
  { by apply elem_of_nil in Hl. }
  apply elem_of_cons in Hl as [->|Hl].
  - exists p, (file_text ((fun x => x +:+ nl) <$> ls)).
    change (file_text ((fun x => x +:+ nl) <$> x :: ls))
      with ((x +:+ nl) +:+ file_text ((fun x => x +:+ nl) <$> ls)).
    by rewrite string_app_assoc.
  - destruct (IH Hl (p +:+ nl +:+ x)) as (pre & post & Heq).
    exists pre, post. rewrite <- Heq.
    change (file_text ((fun x => x +:+ nl) <$> x :: ls))
      with ((x +:+ nl) +:+ file_text ((fun x => x +:+ nl) <$> ls)).
    by rewrite !string_app_assoc.
Qed.

Lemma has_line_section name objs libs incs l :
  l ∈ vpi_section_lines name objs libs incs →
  has_line (VPI_MAKE_SECTION name objs libs incs) l.
Proof.
  intros Hl. unfold has_line, VPI_MAKE_SECTION.
  destruct (has_line_lines _ l Hl EmptyString) as (pre & post & Heq).
  exists pre, post. rewrite <- Heq. done.
Qed.

Lemma has_line_file (ws : list string) (w l : string) :
  w ∈ ws → has_line w l → has_line (file_text ws) l.
Proof.
  intros (a & b & ->)%list_elem_of_split (pre & post & ->).
  exists (file_text a +:+ pre), (post +:+ file_text b).
  rewrite file_text_app.
  change (file_text ((pre +:+ nl +:+ l +:+ nl +:+ post) :: b))
    with ((pre +:+ nl +:+ l +:+ nl +:+ post) +:+ file_text b).
  by rewrite !string_app_assoc.
Qed.

Lemma makefile_has_section_line self m l :
  m ∈ vpi_modules self →
  l ∈ vpi_section_lines (vpi_name m)
        (join " " ((fun s => fst (splitext host s) +:+ ".o") <$> vpi_src_files m))
        (join " " ((fun l => "-l" +:+ l) <$> vpi_libs m))
        (join " " ((fun d => "-I" +:+ d) <$> vpi_include_dirs m)) →
  has_line (file_text (write_makefile self)) l.
Proof.
  intros Hm Hl. apply (has_line_file _ (vpi_section m)).
  - unfold write_makefile. cbv zeta. apply elem_of_app. right.
    by apply list_elem_of_fmap_2.
  - by apply has_line_section.
Qed.

Lemma has_block_file (ws : list string) (w : string) (ls : list string) :
  w ∈ ws → has_block w ls → has_block (file_text ws) ls.
Proof.
  intros (a & b & ->)%list_elem_of_split (pre & post & ->).
  exists (file_text a +:+ pre), (post +:+ file_text b).
  rewrite file_text_app.
  change (file_text
            ((pre +:+ nl +:+ file_text ((fun l => l +:+ nl) <$> ls) +:+ post)
             :: b))
    with ((pre +:+ nl +:+ file_text ((fun l => l +:+ nl) <$> ls) +:+ post)
          +:+ file_text b).
  by rewrite !string_app_assoc.
Qed.

Lemma has_block_section name objs libs incs :
  has_block (VPI_MAKE_SECTION name objs libs incs)
    (vpi_section_lines name objs libs incs).
Proof.
  exists EmptyString, EmptyString. unfold VPI_MAKE_SECTION.
  by rewrite string_app_nil_r.
Qed.

(** C7. The text of the Makefile is the header followed by one section per
    VPI module, in order.  The section of a module is, one line after the
    other: the line of its objects (one [.o] per source file, the extension
    replaced), of its [-l] flags, of its [-I] flags after [$(INCS)], the
    compile flags of its objects, its link target with the link recipe
    right below, and its [clean_] target with the recipe that removes the
    objects and the module.  For the module foo of the specification these
    are the lines given there, on either platform. *)
Theorem C7_vpi_make_section self m :
  m ∈ vpi_modules self →
  let text := file_text (write_makefile self) in
  let section (m : VpiModule) :=
    let n := vpi_name m in
    [ n +:+ "_OBJS := "
        +:+ join " "
              ((fun s => fst (splitext host s) +:+ ".o") <$> vpi_src_files m);
      n +:+ "_LIBS := " +:+ join " " ((fun l => "-l" +:+ l) <$> vpi_libs m);
      n +:+ "_INCS := $(INCS) "
        +:+ join " " ((fun d => "-I" +:+ d) <$> vpi_include_dirs m);
      EmptyString;
      "$(" +:+ n +:+ "_OBJS): CPPFLAGS := $(" +:+ n +:+ "_INCS)";
      EmptyString;
      n +:+ ": $(" +:+ n +:+ "_OBJS)";
      tab +:+ "$(LD) $(LDFLAGS) -o $@ $? $(" +:+ n +:+ "_LIBS)";
      EmptyString;
      "clean_" +:+ n +:+ ":";
      tab +:+ "$(RM) $(" +:+ n +:+ "_OBJS) " +:+ n ] in
  text
  = MAKE_HEADER (toplevel self) (join " " (vpi_name <$> vpi_modules self))
      (join " " (key_values false (vlogparam self)
                 ++ key_values true (generic self)))
      (join " " (key_values false (plusarg self)))
      (join " " (default [] (vsim_options (tool_options self))))
      (join " " ((fun n => "clean_" +:+ n) <$> (vpi_name <$> vpi_modules self)))
    +:+ file_text
          ((fun m => nl +:+ file_text ((fun l => l +:+ nl) <$> section m))
           <$> vpi_modules self)
  ∧ has_block text (section m)
  ∧ (m = mkVpiModule "foo" ["a.c"; "b.cpp"] ["m"] ["/x"] →
     has_block text
       [ "foo_OBJS := a.o b.o";
         "foo_LIBS := -lm";
         "foo_INCS := $(INCS) -I/x";
         EmptyString;
         "$(foo_OBJS): CPPFLAGS := $(foo_INCS)";
         EmptyString;
         "foo: $(foo_OBJS)";
         tab +:+ "$(LD) $(LDFLAGS) -o $@ $? $(foo_LIBS)";
         EmptyString;
         "clean_foo:";
         tab +:+ "$(RM) $(foo_OBJS) foo" ]).
Proof.
  intros Hm. cbv zeta.
  assert (has_block (file_text (write_makefile self))
            (vpi_section_lines (vpi_name m)
               (join " " ((fun s => fst (splitext host s) +:+ ".o")
                          <$> vpi_src_files m))
               (join " " ((fun l => "-l" +:+ l) <$> vpi_libs m))
               (join " " ((fun d => "-I" +:+ d) <$> vpi_include_dirs m))))
    as Hblock.
  { apply (has_block_file _ (vpi_section m)); [|apply has_block_section].
    unfold write_makefile. cbv zeta. apply elem_of_app. right.
    by apply list_elem_of_fmap_2. }
  split_and!.
  - reflexivity.
  - exact Hblock.
  - intros ->. revert Hblock. by destruct host.
Qed.

(** ** run_main *)

(** C6. [run_main] calls the process runner with [make] and the arguments
    [run], followed by one [PLUSARGS=] argument with the blank-separated
    [key=value] pairs exactly when there is a plusarg; for the single
    plusarg seed, rendered as 1, the call is [make run PLUSARGS=seed=1]. *)
Theorem C6_run_main self :
  ∃ rest,
    run_main self = ("make", "run" :: rest)
    ∧ (plusarg self = [] → rest = [])
    ∧ (plusarg self ≠ [] →
       rest = ["PLUSARGS="
               +:+ join " "
                     ((fun kv => fst kv +:+ "=" +:+ param_value_str (snd kv) false)
                      <$> plusarg self)])
    ∧ (∀ v, plusarg self = [("seed", v)] → param_value_str v false = "1" →
       run_main self = ("make", ["run"; "PLUSARGS=seed=1"])).
Proof.
  unfold run_main. cbv zeta. case_bool_decide as Hp.
  - eexists. split; [reflexivity|]. split_and!; [done|done|].
    intros v Hv H1. rewrite Hv. unfold key_values. simpl. by rewrite H1.
  - exists []. split; [done|]. split_and!; [done| |].
    + intros Hne. by destruct Hne.
    + intros v Hv _. rewrite Hv in Hp. discriminate.
Qed.

(** ** Further properties of the generated scripts *)

(** *** The bootstrap script *)

(** X1. [edalize_main.tcl] is the two lines of the preamble followed by one
    [do] line per file of type [tclSource], in the order of the file list,
    with the name of the file as it was supplied (backslashes are kept). *)
Theorem main_tcl_content self src_files incdirs :
  edalize_main_tcl (configure_main self src_files incdirs)
  = ["onerror { quit -code 1; }" +:+ nl; "do edalize_build_rtl.tcl" +:+ nl]
    ++ ((fun f => "do " +:+ name f +:+ nl)
        <$> filter (fun f => file_type f = "tclSource") src_files).
Proof.
  assert (filter (fun f => file_type f = "tclSource") src_files
          = filter is_tcl src_files) as ->.
  { apply list_filter_iff. intros f. unfold is_tcl.
    by rewrite bool_decide_spec. }
  unfold configure_main. cbv zeta.
  change (main_tcl (write_build_rtl_tcl_file self src_files incdirs
            (["onerror { quit -code 1; }" +:+ nl]
             ++ ["do edalize_build_rtl.tcl" +:+ nl]))
          = ["onerror { quit -code 1; }" +:+ nl; "do edalize_build_rtl.tcl" +:+ nl]
            ++ ((fun f => "do " +:+ name f +:+ nl) <$> filter is_tcl src_files)).
  by rewrite main_tcl_eq.
Qed.

(** *** Files that have been visited before *)

Lemma visited_idem f : visited (visited f) = visited f.
Proof.
  unfold visited. destruct (name_truthy (logical_name f)) eqn:Hn.
  - by rewrite Hn.
  - done.
Qed.

Lemma visited_truthy f : name_truthy (logical_name (visited f)) = true.
Proof.
  unfold visited. by destruct (name_truthy (logical_name f)) eqn:Hn.
Qed.

Lemma process_file_visited self incs common st f :
  process_file self incs common st (visited f)
  = process_file self incs common st f.
Proof.
  unfold process_file. cbv zeta. by rewrite !visited_alt, visited_idem.
Qed.

Lemma loop_visited self incs common fs st :
  foldl (process_file self incs common) st (visited <$> fs)
  = foldl (process_file self incs common) st fs.
Proof.
  revert st. induction fs as [|f fs IH]; intros st; [done|].
  simpl. by rewrite process_file_visited, IH.
Qed.

Lemma write_build_rtl_visited self fs incdirs tcl_main :
  write_build_rtl_tcl_file self (visited <$> fs) incdirs tcl_main
  = write_build_rtl_tcl_file self fs incdirs tcl_main.
Proof.
  unfold write_build_rtl_tcl_file. cbv zeta. by rewrite loop_visited.
Qed.

Lemma self_after_eq self src_files incdirs tcl_main :
  self_after (write_build_rtl_tcl_file self src_files incdirs tcl_main)
  = if is_common self then
      match vlog_options (tool_options self) with
      | Some l =>
          set_tool_options self
            (set_vlog_options (tool_options self)
               (l ++ common_suffix self incdirs (existsb is_sv src_files)))
      | None => self
      end
    else self.
Proof.
  unfold write_build_rtl_tcl_file. cbv zeta.
  fold (incdir_flags incdirs). fold (is_common self).
  destruct (is_common self); simpl; [|done].
  rewrite loop_vlog_files. simpl. rewrite existsb_sv_vlog_files.
  destruct (vlog_options (tool_options self)) as [l|]; [|done].
  simpl. unfold common_suffix. do 2 f_equal.
  destruct (existsb is_sv src_files); simpl; by rewrite <- ?app_assoc.
Qed.

(** X2. After generation every [File] object has a logical name that is
    set and not empty.  Generating from the objects as a generation left
    them gives, whatever the state of the tool, what generating from the
    objects as supplied gives.  When the first generation leaves the tool
    as it was (separate compilation, or no [vlog_options]), generating
    again from what it left gives the same three files, the same warnings,
    the same objects and the same tool. *)
Theorem generation_on_visited_files self src_files incdirs :
  let r := configure_main self src_files incdirs in
  Forall (fun f => ∃ n, logical_name f = Some n ∧ n ≠ EmptyString)
    (src_files_after r)
  ∧ (∀ self', configure_main self' (src_files_after r) incdirs
              = configure_main self' src_files incdirs)
  ∧ (compilation_mode (tool_options self) ≠ Some "common"
     ∨ vlog_options (tool_options self) = None →
     configure_main (edatool_after r) (src_files_after r) incdirs = r).
Proof.
  cbv zeta.
  assert (src_files_after (configure_main self src_files incdirs)
          = visited <$> src_files) as Hfiles.
  { unfold configure_main. cbv zeta. simpl. apply files_after_eq. }
  assert (∀ self', configure_main self' (visited <$> src_files) incdirs
                   = configure_main self' src_files incdirs) as Hvis.
  { intros self'. unfold configure_main. cbv zeta.
    by rewrite write_build_rtl_visited. }
  rewrite Hfiles. split_and!.
  - apply Forall_fmap, Forall_forall. intros f _. simpl.
    pose proof (visited_truthy f) as Ht.
    destruct (logical_name (visited f)) as [n|]; [|done].
    exists n. split; [done|]. by intros ->.
  - exact Hvis.
  - intros Hsame. rewrite Hvis.
    assert (edatool_after (configure_main self src_files incdirs) = self)
      as ->; [|done].
    unfold configure_main. cbv zeta. simpl. rewrite self_after_eq.
    destruct Hsame as [Hc%is_common_false| ->].
    + by rewrite Hc.
    + by destruct (is_common self).
Qed.

(** *** The directives of a file list *)

Lemma cmds_separate_exact self incdirs fs :
  fs ≫= file_cmd self (incdir_flags incdirs) false
  = (fun f => if is_vlog f then vlog_directive self incdirs f
              else vcom_directive self f)
    <$> filter eligible fs.
Proof.
  induction fs as [|f fs IH]; [done|].
  change ((f :: fs) ≫= file_cmd self (incdir_flags incdirs) false)
    with (file_cmd self (incdir_flags incdirs) false f
          ++ (fs ≫= file_cmd self (incdir_flags incdirs) false)).
  rewrite IH. unfold file_cmd at 1.
  destruct (is_vlog f) eqn:Hv; [|destruct (is_vhdl f) eqn:Hh].
  - rewrite filter_cons_True by (unfold eligible; by rewrite Hv).
    rewrite fmap_cons, Hv. simpl. f_equal.
    unfold vlog_directive, vlog_args, compile_tail, tcl_path, is_sv.
    by rewrite <- !app_assoc.
  - rewrite filter_cons_True by (unfold eligible; by rewrite Hv, Hh).
    rewrite fmap_cons, Hv. simpl. f_equal.
    unfold vcom_directive, vcom_args, compile_tail, tcl_path.
    by rewrite <- !app_assoc.
  - rewrite filter_cons_False by (unfold eligible; rewrite Hv, Hh; simpl; tauto).
    done.
Qed.

(** X3. Under separate compilation the compile directives of the build
    script are, in the order of the file list, one per Verilog,
    SystemVerilog or VHDL file: [vlog] with [vlog_options], one
    [+define+key=value] per entry of [vlogdefine], [-sv] for a SystemVerilog
    type, the [+incdir+] flags and the closing [-quiet -work lib path]; or
    [vcom] with [-2008] for a type ending so, [vcom_options] and the same
    closing arguments. *)
Theorem separate_directives self src_files incdirs tcl_main :
  compilation_mode (tool_options self) ≠ Some "common" →
  filter is_cmd
    (build_rtl (write_build_rtl_tcl_file self src_files incdirs tcl_main))
  = (fun f => if is_vlog f then vlog_directive self incdirs f
              else vcom_directive self f)
    <$> filter eligible src_files.
Proof.
  intros Hc%is_common_false.
  rewrite build_rtl_eq, Hc, app_nil_r, loop_lines_cmds.
  apply cmds_separate_exact.
Qed.

Lemma loop_lines_vcom self incs common libs fs :
  filter is_vcom (loop_lines self incs common libs fs)
  = vcom_directive self <$> filter is_vhdl fs.
Proof.
  revert libs. induction fs as [|f fs IH]; intros libs; simpl; [done|].
  rewrite !filter_app, IH.
  assert (filter is_vcom
            (if bool_decide (lib_of f ∈ libs) then [] else [Vlib (lib_of f)])
          = []) as -> by (by case_bool_decide).
  simpl. unfold file_cmd.
  destruct (is_vhdl f) eqn:Hh.
  - rewrite (is_vhdl_not_vlog f Hh).
    rewrite (filter_cons_True (fun f => is_vhdl f)) by (by rewrite Hh).
    rewrite fmap_cons. simpl. f_equal.
    unfold vcom_directive, vcom_args, compile_tail, tcl_path.
    by rewrite <- !app_assoc.
  - rewrite (filter_cons_False (fun f => is_vhdl f))
      by (rewrite Hh; simpl; tauto).
    by destruct (is_vlog f), common.
Qed.

Lemma loop_lines_without_vlog self incs common libs fs :
  filter (fun d => negb (is_vlog_line d)) (loop_lines self incs common libs fs)
  = loop_lines self incs true libs fs.
Proof.
  revert libs. induction fs as [|f fs IH]; intros libs; simpl; [done|].
  rewrite !filter_app, IH. f_equal.
  - by case_bool_decide.
  - f_equal. unfold file_cmd.
    by destruct (is_vlog f), (is_vhdl f), common.
Qed.

Lemma loop_lines_any_mode self mode incs libs fs :
  loop_lines (with_compilation_mode self mode) incs true libs fs
  = loop_lines self incs true libs fs.
Proof.
  revert libs. induction fs as [|f fs IH]; intros libs; simpl; [done|].
  by rewrite IH.
Qed.

Lemma build_rtl_without_vlog self src_files incdirs tcl_main :
  filter (fun d => negb (is_vlog_line d))
    (build_rtl (write_build_rtl_tcl_file self src_files incdirs tcl_main))
  = loop_lines self (incdir_flags incdirs) true [] src_files.
Proof.
  rewrite build_rtl_eq, filter_app, loop_lines_without_vlog.
  destruct (is_common self); simpl; by rewrite app_nil_r.
Qed.

Lemma self_after_frame self src_files incdirs tcl_main :
  let self' :=
    self_after (write_build_rtl_tcl_file self src_files incdirs tcl_main) in
  compilation_mode (tool_options self') = compilation_mode (tool_options self)
  ∧ vcom_options (tool_options self') = vcom_options (tool_options self)
  ∧ vsim_options (tool_options self') = vsim_options (tool_options self)
  ∧ vlogdefine self' = vlogdefine self
  ∧ vlogparam self' = vlogparam self
  ∧ generic self' = generic self
  ∧ plusarg self' = plusarg self
  ∧ vpi_modules self' = vpi_modules self
  ∧ toplevel self' = toplevel self.
Proof.
  cbv zeta. rewrite self_after_eq.
  by destruct (is_common self), (vlog_options (tool_options self)).
Qed.

Lemma write_makefile_frame s1 s2 :
  vsim_options (tool_options s1) = vsim_options (tool_options s2) →
  vlogparam s1 = vlogparam s2 → generic s1 = generic s2 →
  plusarg s1 = plusarg s2 → vpi_modules s1 = vpi_modules s2 →
  toplevel s1 = toplevel s2 →
  write_makefile s1 = write_makefile s2.
Proof.
  intros H1 H2 H3 H4 H5 H6. unfold write_makefile. cbv zeta.
  by rewrite H1, H2, H3, H4, H5, H6.
Qed.

(** X4. The value of [compilation_mode] decides the [vlog] commands of the
    build script and, with them, the [compilation_mode] and [vlog_options]
    the tool holds afterwards, and nothing else: the build script without
    its [vlog] commands (the [vlib] and [vcom] directives, in their order,
    one [vcom] per VHDL file), the bootstrap script, the Makefile, the
    warnings, the [File] objects and every other attribute of the tool are
    the same for every mode. *)
Theorem mode_changes_vlog_only self mode src_files incdirs :
  let r := configure_main self src_files incdirs in
  let r' := configure_main (with_compilation_mode self mode) src_files incdirs in
  filter (fun d => negb (is_vlog_line d)) (edalize_build_rtl_tcl r')
  = filter (fun d => negb (is_vlog_line d)) (edalize_build_rtl_tcl r)
  ∧ filter is_vcom (edalize_build_rtl_tcl r)
    = vcom_directive self <$> filter is_vhdl src_files
  ∧ edalize_main_tcl r' = edalize_main_tcl r
  ∧ Makefile r' = Makefile r
  ∧ log r' = log r
  ∧ src_files_after r' = src_files_after r
  ∧ vcom_options (tool_options (edatool_after r'))
    = vcom_options (tool_options (edatool_after r))
  ∧ vsim_options (tool_options (edatool_after r'))
    = vsim_options (tool_options (edatool_after r))
  ∧ vlogdefine (edatool_after r') = vlogdefine (edatool_after r)
  ∧ vlogparam (edatool_after r') = vlogparam (edatool_after r)
  ∧ generic (edatool_after r') = generic (edatool_after r)
  ∧ plusarg (edatool_after r') = plusarg (edatool_after r)
  ∧ vpi_modules (edatool_after r') = vpi_modules (edatool_after r)
  ∧ toplevel (edatool_after r') = toplevel (edatool_after r).
Proof.
  cbv zeta. unfold configure_main. cbv zeta. cbn [edalize_build_rtl_tcl
    edalize_main_tcl Makefile log src_files_after edatool_after].
  set (tcl_main := ["onerror { quit -code 1; }" +:+ nl]
                   ++ ["do edalize_build_rtl.tcl" +:+ nl]).
  destruct (self_after_frame self src_files incdirs tcl_main)
    as (_ & F1 & F2 & F3 & F4 & F5 & F6 & F7 & F8).
  destruct (self_after_frame (with_compilation_mode self mode) src_files
              incdirs tcl_main)
    as (_ & G1 & G2 & G3 & G4 & G5 & G6 & G7 & G8).
  cbv zeta in *. simpl in G1, G2, G3, G4, G5, G6, G7, G8.
  rewrite !build_rtl_without_vlog, loop_lines_any_mode.
  rewrite !main_tcl_eq, !warnings_eq, !files_after_eq.
  rewrite F1, F2, F3, F4, F5, F6, F7, F8, G1, G2, G3, G4, G5, G6, G7, G8.
  split_and!; try done.
  - rewrite build_rtl_eq, filter_app, loop_lines_vcom.
    destruct (is_common self); simpl; by rewrite app_nil_r.
  - apply write_makefile_frame; congruence.
Qed.

(** *** Libraries and their declarations *)

(** X5. Every per-file compile directive of the build script names, after
    [-work], a library whose [vlib] directive stands before it. *)
Theorem compile_after_vlib self src_files incdirs tcl_main pre c args post :
  build_rtl (write_build_rtl_tcl_file self src_files incdirs tcl_main)
  = pre ++ Cmd c args :: post →
  ∃ n, compiles_into (Cmd c args) = Some n ∧ Vlib n ∈ pre.
Proof.
  intros Heq.
  assert (Cmd c args ∈ loop_lines self (incdir_flags incdirs) (is_common self)
                         [] src_files) as Hd.
  { assert (Cmd c args ∈ build_rtl
              (write_build_rtl_tcl_file self src_files incdirs tcl_main)) as Hin.
    { rewrite Heq. apply elem_of_app. right. left. }
    rewrite build_rtl_eq, elem_of_app in Hin. destruct Hin as [?|Hin]; [done|].
    destruct (is_common self); [|by apply elem_of_nil in Hin].
    by apply list_elem_of_singleton in Hin. }
  apply loop_lines_elem in Hd as [(n & [=] & _)|(f & Hf & Hd)].
  pose proof (file_cmd_compiles_into _ _ _ f _ Hd) as Hc.
  exists (lib_of f). split; [done|].
  destruct (vlib_once_before_use self src_files incdirs tcl_main (lib_of f))
    as (pre0 & post0 & Heq0 & _ & _ & Hnone).
  { by apply list_elem_of_fmap_2. }
  rewrite Heq in Heq0.
  apply app_eq_inv in Heq0 as [(k & Hk & Hk')|(k & Hk & Hk')].
  - destruct k as [|x k]; simpl in Hk'; [done|].
    injection Hk' as <- _. rewrite Hk. apply elem_of_app. right. left.
  - destruct k as [|x k]; simpl in Hk'; [done|].
    injection Hk' as <- _. exfalso. apply (Hnone (Cmd c args)); [|done].
    rewrite Hk. apply elem_of_app. right. left.
Qed.

Lemma vlib_in_script self src_files incdirs tcl_main n :
  Vlib n ∈ build_rtl (write_build_rtl_tcl_file self src_files incdirs tcl_main)
  ↔ n ∈ (lib_of <$> src_files).
Proof.
  split.
  - rewrite build_rtl_eq, elem_of_app. intros [Hd|Hd].
    + apply loop_lines_elem in Hd as [(m & [= ->] & _ & Hm)|(f & _ & Hd)];
        [done|].
      by apply file_cmd_is_cmd in Hd.
    + destruct (is_common self); [|by apply elem_of_nil in Hd].
      by apply list_elem_of_singleton in Hd.
  - intros Hn.
    destruct (vlib_once_before_use self src_files incdirs tcl_main n Hn)
      as (pre & post & -> & _).
    apply elem_of_app. right. left.
Qed.

(** X6. The build script has the [vlib] directive of a name exactly when
    the name is the library of a file of the list (a missing or empty
    logical name counting as [work]). *)
Theorem vlib_iff_library self src_files incdirs tcl_main n :
  Vlib n ∈ build_rtl (write_build_rtl_tcl_file self src_files incdirs tcl_main)
  ↔ n ∈ (lib_of <$> src_files).
Proof. apply vlib_in_script. Qed.

(** X7. Under common compilation the aggregate command compiles into the
    library [work], whose [vlib] directive is in the script only when some
    file of the list has [work] (or no logical name) as its library. *)
Theorem common_vlog_library self src_files incdirs tcl_main :
  compilation_mode (tool_options self) = Some "common" →
  ∃ body aggregate,
    build_rtl (write_build_rtl_tcl_file self src_files incdirs tcl_main)
    = body ++ [aggregate]
    ∧ is_common_vlog aggregate = true
    ∧ compiles_into aggregate = Some "work"
    ∧ (Vlib "work" ∈ body ↔ ∃ f, f ∈ src_files ∧ lib_of f = "work").
Proof.
  intros Hc%is_common_true.
  exists (loop_lines self (incdir_flags incdirs) true [] src_files),
    (CommonVlog (common_args self incdirs (existsb is_sv src_files))
       (tcl_path <$> filter is_vlog src_files)).
  rewrite build_rtl_eq, Hc. split_and!; [done|done| |].
  - apply compiles_into_common_args.
  - pose proof (vlib_in_script self src_files incdirs tcl_main "work") as Hiff.
    rewrite build_rtl_eq, Hc, elem_of_app in Hiff.
    rewrite list_elem_of_fmap in Hiff. split.
    + intros Hv. destruct (proj1 Hiff (or_introl Hv)) as (f & Hf & Hin). eauto.
    + intros (f & Hin & Hf). destruct (proj2 Hiff) as [?|Hd]; [by eauto|done|].
      by apply list_elem_of_singleton in Hd.
Qed.

(** *** The options of the tool after generation *)

(** X8. Generation leaves [self] as it was under separate compilation, and
    under common compilation when [tool_options] has no [vlog_options].
    Under common compilation with [vlog_options] present, the list stored
    there is extended in place by the define flags, [-sv] when a file is
    SystemVerilog, the include flags, [-quiet], [-work], [work] and
    [-mfcu]; nothing else of [self] changes. *)
Theorem vlog_options_after_generation self src_files incdirs :
  let self' := edatool_after (configure_main self src_files incdirs) in
  (compilation_mode (tool_options self) ≠ Some "common" → self' = self)
  ∧ (vlog_options (tool_options self) = None → self' = self)
  ∧ (∀ l, compilation_mode (tool_options self) = Some "common" →
          vlog_options (tool_options self) = Some l →
          vlog_options (tool_options self')
          = Some (l ++ define_flags (vlogdefine self)
                    ++ (if existsb is_sv src_files then ["-sv"] else [])
                    ++ incdir_flags incdirs
                    ++ ["-quiet"; "-work"; "work"; "-mfcu"])
          ∧ compilation_mode (tool_options self') = Some "common"
          ∧ vcom_options (tool_options self') = vcom_options (tool_options self)
          ∧ vsim_options (tool_options self') = vsim_options (tool_options self)
          ∧ vlogdefine self' = vlogdefine self
          ∧ vlogparam self' = vlogparam self
          ∧ generic self' = generic self
          ∧ plusarg self' = plusarg self
          ∧ vpi_modules self' = vpi_modules self
          ∧ toplevel self' = toplevel self).
Proof.
  cbv zeta. unfold configure_main. cbv zeta. simpl. rewrite self_after_eq.
  split_and!.
  - intros Hc%is_common_false. by rewrite Hc.
  - intros ->. by destruct (is_common self).
  - intros l Hc Hl. rewrite (is_common_true self Hc), Hl. simpl.
    by rewrite Hc.
Qed.

(** X9. Under common compilation with [vlog_options] present, generating a
    second time with the tool as the first generation left it writes an
    aggregate command that has the define flags, the include flags and
    [-quiet -work work -mfcu] twice: the arguments of the first one,
    followed by the added ones once more. *)
Theorem second_generation_repeats_flags self src_files incdirs l :
  compilation_mode (tool_options self) = Some "common" →
  vlog_options (tool_options self) = Some l →
  let added :=
    define_flags (vlogdefine self)
    ++ (if existsb is_sv src_files then ["-sv"] else [])
    ++ incdir_flags incdirs
    ++ ["-quiet"; "-work"; "work"; "-mfcu"] in
  let r1 := configure_main self src_files incdirs in
  let r2 := configure_main (edatool_after r1) src_files incdirs in
  last (edalize_build_rtl_tcl r1)
  = Some (CommonVlog (l ++ added) (tcl_path <$> filter is_vlog src_files))
  ∧ last (edalize_build_rtl_tcl r2)
    = Some (CommonVlog ((l ++ added) ++ added)
              (tcl_path <$> filter is_vlog src_files)).
Proof.
  intros Hc Hl. cbv zeta. unfold configure_main. cbv zeta. simpl.
  rewrite self_after_eq, (is_common_true self Hc), Hl.
  rewrite !build_rtl_eq.
  assert (is_common
            (set_tool_options self
               (set_vlog_options (tool_options self)
                  (l ++ common_suffix self incdirs (existsb is_sv src_files))))
          = true) as ->.
  { apply is_common_true. simpl. exact Hc. }
  rewrite (is_common_true self Hc), !last_snoc.
  unfold common_args, common_suffix. simpl. rewrite Hl. simpl.
  by rewrite <- !app_assoc.
Qed.

(** *** Paths in the build script *)

Lemma contains_char_replace (old new : ascii) (s : string) :
  old ≠ new → contains_char old (replace old new s) = false.
Proof.
  intros Hne. induction s as [|c s IH]; [done|].
  simpl. rewrite IH, orb_false_r.
  destruct (Ascii.eqb c old) eqn:Hc.
  - apply Ascii.eqb_neq. congruence.
  - done.
Qed.

Lemma contains_char_app (c : ascii) (a b : string) :
  contains_char c (a +:+ b) = contains_char c a || contains_char c b.
Proof.
  induction a as [|d a IH]; [done|].
  change (contains_char c (String d (a +:+ b))
          = contains_char c (String d a) || contains_char c b).
  simpl. by rewrite IH, orb_assoc.
Qed.

Lemma tcl_path_no_backslash f : contains_char backslash (tcl_path f) = false.
Proof. apply contains_char_replace. discriminate. Qed.

Lemma file_cmd_shape self incs common f d :
  d ∈ file_cmd self incs common f →
  ∃ c pre, d = Cmd c (pre ++ compile_tail f).
Proof.
  unfold file_cmd.
  destruct (is_vlog f), (is_vhdl f), common; simpl; intros Hd;
    try (by apply elem_of_nil in Hd);
    apply list_elem_of_singleton in Hd as ->; eauto.
Qed.

(** X10. No path of the build script has a backslash: not the file a
    per-file compile directive ends with, not a file of the aggregate
    command, and not an include-directory flag. *)
Theorem build_script_paths_without_backslash self src_files incdirs tcl_main d :
  d ∈ build_rtl (write_build_rtl_tcl_file self src_files incdirs tcl_main) →
  match d with
  | Vlib _ => True
  | Cmd _ args => ∃ p, last args = Some p ∧ contains_char backslash p = false
  | CommonVlog _ files =>
      Forall (fun p => contains_char backslash p = false) files
  end
  ∧ Forall (fun flag => contains_char backslash flag = false)
      (incdir_flags incdirs).
Proof.
  intros Hd. split.
  - rewrite build_rtl_eq, elem_of_app in Hd. destruct Hd as [Hd|Hd].
    + apply loop_lines_elem in Hd as [(n & -> & _)|(f & _ & Hd)]; [done|].
      apply file_cmd_shape in Hd as (c & pre & ->).
      exists (tcl_path f). split; [|apply tcl_path_no_backslash].
      unfold compile_tail.
      change ["-quiet"; "-work"; lib_of f; tcl_path f]
        with (["-quiet"; "-work"; lib_of f] ++ [tcl_path f]).
      rewrite app_assoc. apply last_snoc.
    + destruct (is_common self); [|by apply elem_of_nil in Hd].
      apply list_elem_of_singleton in Hd as ->.
      apply Forall_fmap, Forall_forall. intros f _.
      apply tcl_path_no_backslash.
  - unfold incdir_flags. apply Forall_fmap, Forall_forall. intros dir _.
    simpl. rewrite contains_char_app, contains_char_replace by discriminate.
    reflexivity.
Qed.

(** *** The variables and targets of the Makefile *)

Lemma has_line_skip (a t l : string) : has_line t l → has_line (a +:+ t) l.
Proof.
  intros (pre & post & ->). exists (a +:+ pre), post.
  by rewrite !string_app_assoc.
Qed.

Lemma has_line_here (x a b post : string) :
  has_line (x +:+ nl +:+ a +:+ b +:+ nl +:+ post) (a +:+ b).
Proof. exists x, post. by rewrite !string_app_assoc. Qed.

Lemma has_line_here_last (x a b : string) :
  has_line (x +:+ nl +:+ a +:+ b +:+ nl) (a +:+ b).
Proof.
  exists x, EmptyString. by rewrite !string_app_assoc, string_app_nil_r.
Qed.

Ltac header_line :=
  unfold MAKE_HEADER;
  repeat first
    [ apply has_line_here | apply has_line_here_last | apply has_line_skip ].

Lemma makefile_has_header_line self l :
  has_line
    (MAKE_HEADER (toplevel self) (join " " (vpi_name <$> vpi_modules self))
       (join " " (key_values false (vlogparam self)
                  ++ key_values true (generic self)))
       (join " " (key_values false (plusarg self)))
       (join " " (default [] (vsim_options (tool_options self))))
       (join " " ((fun m => "clean_" +:+ m) <$> (vpi_name <$> vpi_modules self))))
    l →
  has_line (file_text (write_makefile self)) l.
Proof.
  intros Hl. eapply has_line_file; [|exact Hl].
  unfold write_makefile. cbv zeta. apply elem_of_app. left. left.
Qed.

(** X11. Every module the Makefile names in [VPI_MODULES], and every
    prerequisite [clean_<name>] of its [clean] target, has its rule in the
    Makefile: the variable lists the module names in order, [clean] their
    clean targets, and for each name there are the lines [<name>:
    $(<name>_OBJS)] and [clean_<name>:]. *)
Theorem makefile_targets_have_rules self :
  let text := file_text (write_makefile self) in
  let names := vpi_name <$> vpi_modules self in
  has_line text ("VPI_MODULES   := " +:+ join " " names)
  ∧ has_line text
      ("clean: " +:+ join " " ((fun n => "clean_" +:+ n) <$> names))
  ∧ ∀ n, n ∈ names →
         has_line text (n +:+ ": $(" +:+ n +:+ "_OBJS)")
         ∧ has_line text ("clean_" +:+ n +:+ ":").
Proof.
  cbv zeta. split_and!.
  - apply makefile_has_header_line. header_line.
  - apply makefile_has_header_line. header_line.
  - intros n (m & -> & Hm)%list_elem_of_fmap. split.
    + apply (makefile_has_section_line self m); [done|].
      unfold vpi_section_lines. do 6 right. by left.
    + apply (makefile_has_section_line self m); [done|].
      unfold vpi_section_lines. do 9 right. by left.
Qed.

(** X12. The Makefile sets [PARAMETERS] to the [key=value] pairs of
    [vlogparam] followed by those of [generic] (these rendered with
    [bool_is_str]), and [PLUSARGS] to the pairs of [plusarg]; the
    [PLUSARGS=] argument that [run_main] passes to [make], when there is a
    plusarg, is the value the Makefile already has. *)
Theorem makefile_parameters_and_plusargs self :
  let text := file_text (write_makefile self) in
  let pairs (bool_is_str : bool) d :=
    (fun kv : string * value =>
       fst kv +:+ "=" +:+ param_value_str (snd kv) bool_is_str) <$> d in
  has_line text
    ("PARAMETERS    ?= "
     +:+ join " " (pairs false (vlogparam self) ++ pairs true (generic self)))
  ∧ has_line text ("PLUSARGS      ?= " +:+ join " " (pairs false (plusarg self)))
  ∧ (plusarg self ≠ [] →
     run_main self
     = ("make", ["run"; "PLUSARGS=" +:+ join " " (pairs false (plusarg self))])).
Proof.
  cbv zeta. split_and!.
  - apply makefile_has_header_line. header_line.
  - apply makefile_has_header_line. header_line.
  - intros Hp. unfold run_main. cbv zeta. by rewrite bool_decide_eq_true_2.
Qed.

(** *** Object file names *)

Lemma len_String (d : ascii) (s : string) : len (String d s) = 1 + len s.
Proof. unfold len. simpl String.length. lia. Qed.

Lemma len_nonneg (s : string) : 0 ≤ len s.
Proof. unfold len. lia. Qed.

Lemma rfind_from_bounds (c : ascii) (s : string) (i : Z) :
  0 ≤ i → rfind_from i c s = -1 ∨ i ≤ rfind_from i c s < i + len s.
Proof.
  revert i. induction s as [|d s IH]; intros i Hi; [by left|].
  simpl rfind_from. rewrite len_String.
  destruct (IH (i + 1)) as [->|Hr]; [lia| |].
  - simpl. destruct (Ascii.eqb d c); [right; pose proof (len_nonneg s); lia|by left].
  - destruct (Z.leb_spec 0 (rfind_from (i + 1) c s)); [right; lia|lia].
Qed.

Lemma rfind_from_none (c : ascii) (s : string) (i : Z) :
  0 ≤ i → rfind_from i c s < 0 → contains_char c s = false.
Proof.
  revert i. induction s as [|d s IH]; intros i Hi; [done|].
  simpl rfind_from. simpl contains_char.
  destruct (Z.leb_spec 0 (rfind_from (i + 1) c s)) as [Hr|Hr]; [lia|].
  destruct (Ascii.eqb d c); [lia|]. intros _. simpl.
  apply (IH (i + 1)); lia.
Qed.

Lemma rfind_from_split (c : ascii) (s : string) (i : Z) :
  0 ≤ i → 0 ≤ rfind_from i c s →
  ∃ a b, s = a +:+ String c b
         ∧ len a = rfind_from i c s - i
         ∧ contains_char c b = false.
Proof.
  revert i. induction s as [|d s IH]; intros i Hi; [simpl; lia|].
  simpl rfind_from.
  destruct (Z.leb_spec 0 (rfind_from (i + 1) c s)) as [Hr|Hr].
  - intros _. destruct (IH (i + 1)) as (a & b & -> & Hlen & Hb); [lia|done|].
    exists (String d a), b. split_and!; [done| |done].
    rewrite len_String. lia.
  - destruct (Ascii.eqb d c) eqn:Hd; [|lia]. intros _.
    apply Ascii.eqb_eq in Hd as ->.
    exists EmptyString, s. split_and!; [done|unfold len; simpl; lia|].
    apply (rfind_from_none c s (i + 1)); lia.
Qed.

Lemma rfind_from_after (c : ascii) (a t : string) (i : Z) :
  0 ≤ i → rfind_from i c (a +:+ t) < i + len a →
  contains_char c t = false.
Proof.
  revert i. induction a as [|d a IH]; intros i Hi Hr.
  - change (EmptyString +:+ t) with t in Hr. unfold len in Hr. simpl in Hr.
    destruct (rfind_from_bounds c t i Hi) as [Hn|Hn]; [|lia].
    apply (rfind_from_none c t i); lia.
  - change (String d a +:+ t) with (String d (a +:+ t)) in Hr.
    simpl rfind_from in Hr. rewrite len_String in Hr.
    apply (IH (i + 1)); [lia|].
    destruct (Z.leb_spec 0 (rfind_from (i + 1) c (a +:+ t))) as [H0|H0];
      [lia|].
    pose proof (len_nonneg a). lia.
Qed.

Lemma substring_full (s : string) : String.substring 0 (String.length s) s = s.
Proof. induction s as [|c s IH]; [done|]. simpl. by rewrite IH. Qed.

Lemma substring_app_l (a b : string) :
  String.substring 0 (String.length a) (a +:+ b) = a.
Proof.
  induction a as [|c a IH]; [by destruct b|].
  change (String c a +:+ b) with (String c (a +:+ b)). simpl. by rewrite IH.
Qed.

Lemma substring_app_r (a b : string) :
  String.substring (String.length a) (String.length b) (a +:+ b) = b.
Proof.
  induction a as [|c a IH]; [apply substring_full|].
  change (String c a +:+ b) with (String c (a +:+ b)). simpl. exact IH.
Qed.

Lemma string_length_app (a b : string) :
  String.length (a +:+ b) = (String.length a + String.length b)%nat.
Proof.
  induction a as [|c a IH]; [done|].
  change (String c a +:+ b) with (String c (a +:+ b)). simpl. by rewrite IH.
Qed.

(** *** What [os.path.splitext] cuts *)

Lemma no_sep_spec s :
  no_sep host s = true ↔ ∀ c, c ∈ separators host → contains_char c s = false.
Proof.
  unfold no_sep. rewrite forallb_forall. split.
  - intros H c Hc. apply list_elem_of_In in Hc. apply H in Hc.
    by apply negb_true_iff in Hc.
  - intros H c Hc. apply list_elem_of_In in Hc. apply negb_true_iff. by apply H.
Qed.

Lemma separators_not_dot c : c ∈ separators host → Ascii.eqb dot c = false.
Proof.
  destruct host; simpl; intros Hc;
    repeat (apply elem_of_cons in Hc as [->|Hc]); try done;
    by apply elem_of_nil in Hc.
Qed.

Lemma sep_index_upper p c :
  c ∈ separators host → rfind p c ≤ sep_index host p.
Proof.
  destruct host; simpl; intros Hc;
    repeat (apply elem_of_cons in Hc as [->|Hc]);
    try (by apply elem_of_nil in Hc); lia.
Qed.

Lemma sep_index_is p :
  sep_index host p = -1 ∨ ∃ c, c ∈ separators host ∧ sep_index host p = rfind p c.
Proof.
  destruct host; simpl.
  - right. exists slash. split; [left|done].
  - right. destruct (Z.max_spec (rfind p backslash) (rfind p slash)) as [[_ ->]|[_ ->]].
    + exists slash. split; [right; left|done].
    + exists backslash. split; [left|done].
Qed.

Lemma splitext_sep_index p :
  splitext host p
  = let dotIndex := rfind p dot in
    if (sep_index host p <? dotIndex)
       && negb (all_of dot (slice p (sep_index host p + 1) dotIndex))
    then (slice p 0 dotIndex, slice p dotIndex (len p))
    else (p, EmptyString).
Proof. by destruct host. Qed.

Lemma contains_char_rfind (c : ascii) (s : string) (i : Z) :
  0 ≤ i → contains_char c s = false → rfind_from i c s = -1.
Proof.
  intros Hi Hc. destruct (rfind_from_bounds c s i Hi) as [?|Hb]; [done|].
  destruct (rfind_from_split c s i Hi) as (a & b & -> & _); [lia|].
  rewrite contains_char_app in Hc. apply orb_false_iff in Hc as [_ Hc].
  simpl in Hc. by rewrite Ascii.eqb_refl in Hc.
Qed.

Lemma rfind_from_last (c : ascii) (a b : string) (i : Z) :
  0 ≤ i → contains_char c b = false →
  rfind_from i c (a +:+ String c b) = i + len a.
Proof.
  revert i. induction a as [|d a IH]; intros i Hi Hb.
  - change (EmptyString +:+ String c b) with (String c b). simpl rfind_from.
    rewrite (contains_char_rfind c b (i + 1)) by (lia || done).
    simpl. rewrite Ascii.eqb_refl. unfold len. simpl. lia.
  - change (String d a +:+ String c b) with (String d (a +:+ String c b)).
    simpl rfind_from. rewrite IH by (lia || done). rewrite len_String.
    pose proof (len_nonneg a).
    destruct (Z.leb_spec 0 (i + 1 + len a)); lia.
Qed.

Lemma rfind_from_before (c : ascii) (a t : string) (i : Z) :
  0 ≤ i → contains_char c t = false →
  rfind_from i c (a +:+ t) < i + len a.
Proof.
  revert i. induction a as [|d a IH]; intros i Hi Ht.
  - change (EmptyString +:+ t) with t.
    rewrite (contains_char_rfind c t i) by done. unfold len. simpl. lia.
  - change (String d a +:+ t) with (String d (a +:+ t)).
    simpl rfind_from. rewrite len_String.
    pose proof (IH (i + 1) ltac:(lia) Ht). pose proof (len_nonneg a).
    destruct (Z.leb_spec 0 (rfind_from (i + 1) c (a +:+ t))); [lia|].
    destruct (Ascii.eqb d c); lia.
Qed.

Lemma all_of_app (c : ascii) (a b : string) :
  all_of c (a +:+ b) = all_of c a && all_of c b.
Proof.
  induction a as [|d a IH]; [done|].
  change (String d a +:+ b) with (String d (a +:+ b)). simpl.
  by rewrite IH, andb_assoc.
Qed.

Lemma substring_prefix (a r : string) (n m : nat) :
  (n + m ≤ String.length a)%nat →
  String.substring n m (a +:+ r) = String.substring n m a.
Proof.
  revert n m. induction a as [|c a IH]; intros n m Hnm.
  - simpl in Hnm. assert (n = 0%nat) as -> by lia.
    assert (m = 0%nat) as -> by lia. by destruct r.
  - change (String c a +:+ r) with (String c (a +:+ r)).
    simpl in Hnm. destruct n as [|n]; simpl.
    + destruct m as [|m]; [done|]. by rewrite (IH 0%nat m) by lia.
    + apply IH. lia.
Qed.

Lemma substring_split (a : string) (n : nat) :
  (n ≤ String.length a)%nat →
  a = String.substring 0 n a +:+ String.substring n (String.length a - n) a.
Proof.
  revert n. induction a as [|c a IH]; intros n Hn.
  - simpl in Hn. by assert (n = 0%nat) as -> by lia.
  - simpl in Hn. destruct n as [|n].
    + simpl. by rewrite substring_full.
    + simpl.
      change (String c (String.substring 0 n a)
              +:+ String.substring n (String.length a - n) a)
        with (String c (String.substring 0 n a
                        +:+ String.substring n (String.length a - n) a)).
      by rewrite <- IH by lia.
Qed.

Lemma substring_0_length (a : string) (n : nat) :
  (n ≤ String.length a)%nat → String.length (String.substring 0 n a) = n.
Proof.
  revert n. induction a as [|c a IH]; intros n Hn.
  - simpl in Hn. by assert (n = 0%nat) as -> by lia.
  - simpl in Hn. destruct n as [|n]; [done|]. simpl. by rewrite IH by lia.
Qed.

Lemma substring_suffix_app (a b : string) (n : nat) :
  (n ≤ String.length a)%nat →
  String.substring n (String.length a + String.length b - n) (a +:+ b)
  = String.substring n (String.length a - n) a +:+ b.
Proof.
  revert n. induction a as [|c a IH]; intros n Hn.
  - simpl in Hn. assert (n = 0%nat) as -> by lia. simpl.
    rewrite Nat.sub_0_r. apply substring_full.
  - destruct n as [|n].
    + by rewrite !Nat.sub_0_r, <- string_length_app, !substring_full.
    + change (String c a +:+ b) with (String c (a +:+ b)).
      simpl in Hn. simpl. apply IH. lia.
Qed.

Lemma sep_index_lower p : -1 ≤ sep_index host p.
Proof.
  destruct (sep_index_is p) as [->|(c & _ & ->)]; [lia|].
  destruct (rfind_from_bounds c p 0 ltac:(lia)) as [H|H];
    unfold rfind; lia.
Qed.

Lemma slices_at (a ext : string) :
  slice (a +:+ ext) 0 (len a) = a
  ∧ slice (a +:+ ext) (len a) (len (a +:+ ext)) = ext.
Proof.
  unfold slice, len. rewrite string_length_app. split.
  - rewrite Z.sub_0_r, Nat2Z.id. apply substring_app_l.
  - replace (Z.to_nat (Z.of_nat (String.length a + String.length ext)
                       - Z.of_nat (String.length a)))
      with (String.length ext) by lia.
    rewrite Nat2Z.id. apply substring_app_r.
Qed.

Lemma splitext_cut dir base e :
  no_sep host base = true → all_of dot base = false →
  no_sep host e = true → contains_char dot e = false →
  splitext host (dir +:+ base +:+ String dot e)
  = (dir +:+ base, String dot e).
Proof.
  intros Hbase Hdots He Hdot.
  rewrite no_sep_spec in Hbase, He.
  rewrite <- string_app_assoc. set (p := (dir +:+ base) +:+ String dot e).
  rewrite splitext_sep_index. cbv zeta.
  assert (rfind p dot = len (dir +:+ base)) as Hd.
  { unfold rfind, p. rewrite rfind_from_last by (lia || done). lia. }
  assert (sep_index host p < len dir) as Hs.
  { pose proof (len_nonneg dir).
    destruct (sep_index_is p) as [->|(c & Hc & ->)]; [lia|].
    unfold rfind, p. rewrite string_app_assoc.
    pose proof (rfind_from_before c dir (base +:+ String dot e) 0) as Hb.
    apply Hb; [lia|]. rewrite contains_char_app, (Hbase c Hc).
    change (contains_char c (String dot e))
      with (Ascii.eqb dot c || contains_char c e).
    by rewrite (separators_not_dot c Hc), (He c Hc). }
  pose proof (sep_index_lower p) as Hl.
  assert (len (dir +:+ base) = len dir + len base) as Hlen.
  { unfold len. rewrite string_length_app. lia. }
  pose proof (len_nonneg base).
  rewrite Hd.
  destruct (Z.ltb_spec (sep_index host p) (len (dir +:+ base))); [|lia].
  assert (all_of dot (slice p (sep_index host p + 1) (len (dir +:+ base)))
          = false) as ->.
  { unfold slice.
    set (n := Z.to_nat (sep_index host p + 1)).
    assert (n ≤ String.length dir)%nat as Hn by (unfold n, len in *; lia).
    replace (Z.to_nat (len (dir +:+ base) - (sep_index host p + 1)))
      with (String.length dir + String.length base - n)%nat
      by (unfold n, len in *; lia).
    unfold p.
    rewrite substring_prefix by (rewrite string_length_app; lia).
    rewrite substring_suffix_app by done.
    by rewrite all_of_app, Hdots, andb_false_r. }
  simpl. unfold p.
  by destruct (slices_at (dir +:+ base) (String dot e)) as [-> ->].
Qed.

Lemma splitext_result p :
  splitext host p = (p, EmptyString)
  ∨ ∃ dir base e,
      p = dir +:+ base +:+ String dot e
      ∧ splitext host p = (dir +:+ base, String dot e)
      ∧ no_sep host base = true ∧ all_of dot base = false
      ∧ no_sep host e = true ∧ contains_char dot e = false.
Proof.
  rewrite splitext_sep_index. cbv zeta.
  pose proof (sep_index_lower p) as Hl.
  destruct (Z.ltb_spec (sep_index host p) (rfind p dot)) as [Hlt|]; [|by left].
  destruct (all_of dot (slice p (sep_index host p + 1) (rfind p dot))) eqn:Hall;
    [by left|].
  right. simpl.
  destruct (rfind_from_split dot p 0 ltac:(lia)) as (a & b & Hp & Hlen & Hb).
  { unfold rfind in Hlt. lia. }
  fold (rfind p dot) in Hlen. rewrite Z.sub_0_r in Hlen.
  set (n := Z.to_nat (sep_index host p + 1)).
  assert (n ≤ String.length a)%nat as Hn by (unfold n, len in *; lia).
  set (dir := String.substring 0 n a).
  set (base := String.substring n (String.length a - n) a).
  assert (a = dir +:+ base) as Ha by (by apply substring_split).
  assert (len dir = sep_index host p + 1) as Hdir.
  { unfold len, dir. rewrite substring_0_length by done. unfold n. lia. }
  assert (∀ c, c ∈ separators host →
               contains_char c (base +:+ String dot b) = false) as Hsep.
  { intros c Hc. apply (rfind_from_after c dir _ 0); [lia|].
    rewrite <- string_app_assoc, <- Ha, <- Hp.
    pose proof (sep_index_upper p c Hc). unfold rfind in *. lia. }
  exists dir, base, b. split_and!.
  - by rewrite <- string_app_assoc, <- Ha.
  - rewrite <- Ha, <- Hlen. rewrite Hp at 1 2 3.
    by destruct (slices_at a (String dot b)) as [-> ->].
  - apply no_sep_spec. intros c Hc. specialize (Hsep c Hc).
    rewrite contains_char_app in Hsep. by apply orb_false_iff in Hsep as [? _].
  - rewrite <- Hall. unfold slice. fold n.
    replace (Z.to_nat (rfind p dot - (sep_index host p + 1)))
      with (String.length a - n)%nat by (unfold n, len in *; lia).
    rewrite Hp. by rewrite substring_prefix by lia.
  - apply no_sep_spec. intros c Hc. specialize (Hsep c Hc).
    rewrite contains_char_app in Hsep. apply orb_false_iff in Hsep as [_ Hsep].
    change (contains_char c (String dot b))
      with (Ascii.eqb dot c || contains_char c b) in Hsep.
    by apply orb_false_iff in Hsep as [_ ?].
  - done.
Qed.

(** X13. The objects of a VPI module, as its [_OBJS] line lists them, are
    its sources with the extension replaced by [.o], one for one and in
    order.  The extension that is taken off is what [os.path.splitext] of
    the host cuts: it has no separator of the host; it is empty, or a dot
    followed by characters that are no dot; it is not empty only when the
    last component has, before that dot, a character that is no dot; and
    whenever the source is a directory part, a base without separator that
    is not made of dots only, a dot and a rest without separator and dot,
    the object is directory part and base followed by [.o]. *)
Theorem object_name_root_and_extension self m :
  m ∈ vpi_modules self →
  ∃ objs,
    has_line (file_text (write_makefile self))
      (vpi_name m +:+ "_OBJS := " +:+ join " " objs)
    ∧ Forall2
        (fun src obj => ∃ root ext,
           src = root +:+ ext
           ∧ obj = root +:+ ".o"
           ∧ no_sep host ext = true
           ∧ (ext = EmptyString
              ∨ ∃ e, ext = String dot e ∧ contains_char dot e = false)
           ∧ (ext ≠ EmptyString →
              ∃ dir base,
                root = dir +:+ base
                ∧ no_sep host base = true ∧ all_of dot base = false)
           ∧ (∀ dir base e,
                src = dir +:+ base +:+ String dot e →
                no_sep host base = true → all_of dot base = false →
                no_sep host e = true → contains_char dot e = false →
                root = dir +:+ base ∧ ext = String dot e))
        (vpi_src_files m) objs.
Proof.
  intros Hm.
  exists ((fun s => fst (splitext host s) +:+ ".o") <$> vpi_src_files m).
  split.
  { apply (makefile_has_section_line self m); [done|].
    unfold vpi_section_lines. by left. }
  apply Forall2_fmap_r, Forall_Forall2_diag, Forall_forall. intros src _.
  exists (fst (splitext host src)), (snd (splitext host src)).
  assert (∀ dir base e,
            src = dir +:+ base +:+ String dot e →
            no_sep host base = true → all_of dot base = false →
            no_sep host e = true → contains_char dot e = false →
            fst (splitext host src) = dir +:+ base
            ∧ snd (splitext host src) = String dot e) as Hcut.
  { intros dir base e -> Hb Hd He Hdot. by rewrite splitext_cut. }
  destruct (splitext_result src)
    as [Heq|(dir & base & e & Hp & Heq & Hb & Hd & He & Hdot)];
    rewrite Heq in *; cbn [fst snd] in *.
  - split_and!; [by rewrite string_app_nil_r|done|by destruct host|by left
                 |done|exact Hcut].
  - split_and!.
    + by rewrite string_app_assoc.
    + done.
    + apply no_sep_spec. intros c Hc.
      change (contains_char c (String dot e))
        with (Ascii.eqb dot c || contains_char c e).
      rewrite (separators_not_dot c Hc).
      by apply (proj1 (no_sep_spec e) He).
    + right. eauto.
    + intros _. eauto.
    + exact Hcut.
Qed.

(** *** The type dispatch on tags with a suffix *)

Lemma startswith_app (p s : string) : startswith (p +:+ s) p = true.
Proof.
  induction p as [|c p IH]; [by destruct s|].
  change (String c p +:+ s) with (String c (p +:+ s)). simpl.
  by rewrite Ascii.eqb_refl, IH.
Qed.

Lemma suffixed_tags_dispatch (nm suffix : string) (ln : option string) :
  suffix ≠ EmptyString →
  is_vlog (mkSourceFile nm ("verilogSource" +:+ suffix) ln) = true
  ∧ is_vlog (mkSourceFile nm ("systemVerilogSource" +:+ suffix) ln) = true
  ∧ is_vhdl (mkSourceFile nm ("vhdlSource" +:+ suffix) ln) = true
  ∧ recognized (mkSourceFile nm ("tclSource" +:+ suffix) ln) = false
  ∧ recognized (mkSourceFile nm ("user" +:+ suffix) ln) = false.
Proof.
  intros Hs. unfold recognized, is_vlog, is_vhdl, is_tcl, is_user.
  cbn [file_type]. rewrite !startswith_app. split_and!; try done.
  - change (startswith ("tclSource" +:+ suffix) "verilogSource") with false.
    change (startswith ("tclSource" +:+ suffix) "systemVerilogSource")
      with false.
    change (startswith ("tclSource" +:+ suffix) "vhdlSource") with false.
    rewrite !bool_decide_eq_false_2; [done| |].
    + intros H. apply (f_equal String.length) in H.
      rewrite string_length_app in H. simpl in H. lia.
    + intros H. apply Hs.
      by apply (inj (String.app "tclSource") suffix EmptyString) in H.
  - change (startswith ("user" +:+ suffix) "verilogSource") with false.
    change (startswith ("user" +:+ suffix) "systemVerilogSource") with false.
    change (startswith ("user" +:+ suffix) "vhdlSource") with false.
    rewrite !bool_decide_eq_false_2; [done| |].
    + intros H. apply Hs.
      by apply (inj (String.app "user") suffix EmptyString) in H.
    + intros H. cbv [String.append] in H. discriminate H.
Qed.

(** X14. The Verilog, SystemVerilog and VHDL tags are matched as prefixes,
    the tags [tclSource] and [user] as whole words.  A file whose type is
    [vhdlSource] and any suffix has its [vcom] directive in the build
    script; one whose type is [verilogSource] or [systemVerilogSource] and
    any suffix has its [vlog] directive there under separate compilation
    and its path in the aggregate command under common compilation.  A file
    whose type is [tclSource] or [user] followed by a suffix that is not
    empty gets the warning of an unknown type, and neither a [do] entry nor
    a compile directive: without it the bootstrap script and the compile
    directives are the same. *)
Theorem type_tags_with_suffix self l1 f l2 incdirs tcl_main suffix :
  suffix ≠ EmptyString →
  let r := write_build_rtl_tcl_file self (l1 ++ f :: l2) incdirs tcl_main in
  let r0 := write_build_rtl_tcl_file self (l1 ++ l2) incdirs tcl_main in
  (file_type f = "vhdlSource" +:+ suffix →
   vcom_directive self f ∈ build_rtl r)
  ∧ (file_type f = "verilogSource" +:+ suffix
     ∨ file_type f = "systemVerilogSource" +:+ suffix →
     (compilation_mode (tool_options self) ≠ Some "common" →
      vlog_directive self incdirs f ∈ build_rtl r)
     ∧ (compilation_mode (tool_options self) = Some "common" →
        ∃ body args files,
          build_rtl r = body ++ [CommonVlog args files]
          ∧ replace backslash slash (name f) ∈ files))
  ∧ (file_type f = "tclSource" +:+ suffix
     ∨ file_type f = "user" +:+ suffix →
     (name f +:+ " has unknown file type '" +:+ file_type f +:+ "'")
     ∈ warnings r
     ∧ main_tcl r = main_tcl r0
     ∧ filter (fun d => negb (is_vlib d)) (build_rtl r)
       = filter (fun d => negb (is_vlib d)) (build_rtl r0)).
Proof.
  intros Hs. cbv zeta.
  assert (f ∈ l1 ++ f :: l2) as Hin.
  { apply elem_of_app. right. left. }
  destruct f as [nm ft ln]. cbn [file_type name]. split_and!.
  - intros ->.
    destruct (suffixed_tags_dispatch nm suffix ln Hs) as (_ & _ & Hh & _).
    assert (vcom_directive self (mkSourceFile nm ("vhdlSource" +:+ suffix) ln)
            ∈ filter is_vcom
                (build_rtl (write_build_rtl_tcl_file self
                   (l1 ++ mkSourceFile nm ("vhdlSource" +:+ suffix) ln :: l2)
                   incdirs tcl_main))) as Hv.
    { rewrite build_rtl_eq, filter_app, loop_lines_vcom.
      apply elem_of_app. left. apply list_elem_of_fmap_2.
      apply list_elem_of_filter. split; [by rewrite Hh|done]. }
    by apply list_elem_of_filter in Hv as [_ Hv].
  - intros Hft.
    assert (is_vlog (mkSourceFile nm ft ln) = true) as Hv.
    { destruct (suffixed_tags_dispatch nm suffix ln Hs) as (H1 & H2 & _).
      by destruct Hft as [-> | ->]. }
    split.
    + intros Hc.
      assert (vlog_directive self incdirs (mkSourceFile nm ft ln)
              ∈ filter is_cmd
                  (build_rtl (write_build_rtl_tcl_file self
                     (l1 ++ mkSourceFile nm ft ln :: l2) incdirs tcl_main)))
        as Hd.
      { rewrite build_rtl_eq, (is_common_false self Hc), app_nil_r,
          loop_lines_cmds, cmds_separate_exact.
        apply list_elem_of_fmap.
        exists (mkSourceFile nm ft ln). rewrite Hv. split; [done|].
        apply list_elem_of_filter. split; [|done].
        unfold eligible. by rewrite Hv. }
      by apply list_elem_of_filter in Hd as [_ Hd].
    + intros Hc. rewrite build_rtl_eq, (is_common_true self Hc).
      eexists _, _, _. split; [reflexivity|].
      apply (list_elem_of_fmap_2 tcl_path _ (mkSourceFile nm ft ln)).
      apply list_elem_of_filter. split; [by rewrite Hv|done].
  - intros Hft.
    assert (recognized (mkSourceFile nm ft ln) = false) as Hr.
    { destruct (suffixed_tags_dispatch nm suffix ln Hs) as (_ & _ & _ & H1 & H2).
      by destruct Hft as [-> | ->]. }
    assert (is_tcl (mkSourceFile nm ft ln) = false) as Ht.
    { unfold recognized in Hr.
      by destruct (is_vlog _), (is_vhdl _), (is_tcl (mkSourceFile nm ft ln)). }
    split.
    + rewrite warnings_eq.
      apply (list_elem_of_fmap_2 unknown_type_msg _ (mkSourceFile nm ft ln)).
      apply list_elem_of_filter. split; [by rewrite Hr|done].
    + destruct (skipped_file_no_lines self l1 (mkSourceFile nm ft ln) l2
                  incdirs tcl_main) as [Hb Hm]; [|done|done].
      by apply unrecognized_not_eligible.
Qed.

End Modelsim.

Arguments tool_options {value} _.
Arguments plusarg {value} _.
Arguments vpi_modules {value} _.
Arguments build_rtl {value} _.
Arguments main_tcl {value} _.
Arguments warnings {value} _.
Arguments files_after {value} _.
Arguments src_files_after {value} _.
Arguments write_build_rtl_tcl_file {value} _ _ _ _ _.
Arguments write_makefile {value} _ _ _.
Arguments configure_main {value} _ _ _ _ _.
Arguments run_main {value} _ _.
Arguments process_file {value} _ _ _ _ _ _.
Arguments demo_tool {value} _ _.

(** ** Witnesses and counterexamples *)

(** The build script of a single [vhdlSource-87] file: the directive has no
    [-87]. *)
Example vhdl_87_script :
  build_rtl_text
    (build_rtl (write_build_rtl_tcl_file Demo.str_value (demo_tool None "1")
                  [mkSourceFile "x.vhd" "vhdlSource-87" None] [] []))
  = "vlib work" +:+ nl +:+ "vcom -explicit -quiet -work work x.vhd" +:+ nl.
Proof. vm_compute. reflexivity. Qed.

Lemma C2_common_compilation_witness :
  compilation_mode (Demo.options (Some "common")) = Some "common"
  ∧ ∃ body,
      build_rtl (write_build_rtl_tcl_file Demo.str_value
                   (demo_tool (Some "common") "1") Demo.files Demo.incdirs [])
      = body ++
        [CommonVlog
           ["-timescale=1ns/1ps"; "+define+DEBUG=1"; "-sv"; "+incdir+inc/hdr";
            "-quiet"; "-work"; "work"; "-mfcu"]
           ["rtl/a.v"; "s.sv"]]
      ∧ Forall2 (fun f d => ∃ pre, d = Cmd "vcom" (pre ++ compile_tail f))
          [Demo.b_vhd] (filter is_cmd body).
Proof.
  split; [reflexivity|].
  destruct (C2_common_compilation string Demo.str_value
              (demo_tool (Some "common") "1") Demo.files Demo.incdirs [] eq_refl)
    as (body & Hb & _ & _ & HF).
  exists body. split.
  - (vm_compute in Hb; vm_compute; exact Hb).
  - exact HF.
Defined.

Lemma C3_vlib_once_before_use_witness :
  "lib1" ∈ (lib_of <$> Demo.files)
  ∧ vlib_names
      (build_rtl (write_build_rtl_tcl_file Demo.str_value (demo_tool None "1")
                    Demo.files Demo.incdirs []))
    = ["work"; "lib1"; "lib2"; "lib3"].
Proof.
  assert ("lib1" ∈ (lib_of <$> Demo.files)) as Hin.
  { right. left. }
  split; [exact Hin|].
  pose proof (proj2 (C3_vlib_once_before_use string Demo.str_value (demo_tool None "1")
                  Demo.files Demo.incdirs [] "lib1" Hin)) as H.
  vm_compute in H. vm_compute. exact H.
Defined.

Lemma C5_separate_compilation_witness :
  compilation_mode (Demo.options None) ≠ Some "common"
  ∧ length (filter is_cmd
              (build_rtl (write_build_rtl_tcl_file Demo.str_value
                            (demo_tool None "1") Demo.files Demo.incdirs [])))
    = 3%nat.
Proof.
  assert (compilation_mode (Demo.options None) ≠ Some "common") as Hm.
  { discriminate. }
  split; [exact Hm|].
  pose proof (proj1 (C5_separate_compilation string Demo.str_value (demo_tool None "1")
                  Demo.files Demo.incdirs [] Hm)) as H.
  vm_compute in H. vm_compute. exact H.
Defined.

Lemma C9_vlib_for_every_file_witness :
  Demo.c_tcl ∈ Demo.files
  ∧ Vlib "lib2"
    ∈ build_rtl (write_build_rtl_tcl_file Demo.str_value
                   (demo_tool (Some "common") "1") Demo.files Demo.incdirs [])
  ∧ ∀ d,
      d ∈ build_rtl (write_build_rtl_tcl_file Demo.str_value
                       (demo_tool (Some "common") "1") Demo.files Demo.incdirs []) →
      compiles_into d ≠ Some "lib2".
Proof.
  assert (Demo.c_tcl ∈ Demo.files) as Hin.
  { do 3 right. left. }
  split; [exact Hin|].
  destruct (C9_vlib_for_every_file string Demo.str_value
              (demo_tool (Some "common") "1") Demo.files Demo.incdirs []
              Demo.c_tcl Hin) as [Hv Hn].
  split; [exact Hv|].
  apply Hn.
  - intros g Hg Hl.
    repeat (apply elem_of_cons in Hg as [->|Hg]); try done.
    by apply elem_of_nil in Hg.
  - discriminate.
Defined.

Lemma C10_common_vlog_unconditional_witness :
  compilation_mode (Demo.options (Some "common")) = Some "common"
  ∧ (∀ f, f ∈ [Demo.b_vhd] → is_vlog f = false)
  ∧ ∃ body args,
      build_rtl (write_build_rtl_tcl_file Demo.str_value
                   (demo_tool (Some "common") "1") [Demo.b_vhd] Demo.incdirs [])
      = body ++ [CommonVlog args []]
      ∧ build_rtl_text
          (build_rtl (write_build_rtl_tcl_file Demo.str_value
                        (demo_tool (Some "common") "1") [Demo.b_vhd] Demo.incdirs []))
        = build_rtl_text body +:+ "vlog " +:+ join " " args +:+ " ".
Proof.
  assert (∀ f, f ∈ [Demo.b_vhd] → is_vlog f = false) as Hno.
  { intros f ->%list_elem_of_singleton. reflexivity. }
  split; [reflexivity|]. split; [exact Hno|].
  destruct (C10_common_vlog_unconditional string Demo.str_value
              (demo_tool (Some "common") "1") [Demo.b_vhd] Demo.incdirs [] eq_refl)
    as (body & args & _ & _ & Himp).
  exists body, args. exact (Himp Hno).
Defined.

(** The text of the build script for one VHDL file under common
    compilation. *)
Example common_vlog_without_files :
  build_rtl_text
    (build_rtl (write_build_rtl_tcl_file Demo.str_value
                  (demo_tool (Some "common") "1") [Demo.b_vhd] Demo.incdirs []))
  = "vlib lib1" +:+ nl
    +:+ "vcom -2008 -explicit -quiet -work lib1 b.vhd" +:+ nl
    +:+ "vlog -timescale=1ns/1ps +define+DEBUG=1 +incdir+inc/hdr -quiet -work work -mfcu ".
Proof. vm_compute. reflexivity. Qed.

Lemma C4_unrecognized_file_skipped_witness :
  (recognized Demo.e_x = false ∨ file_type Demo.e_x = "user")
  ∧ warnings (write_build_rtl_tcl_file Demo.str_value (demo_tool None "1")
               ([Demo.a_v; Demo.s_sv; Demo.b_vhd; Demo.c_tcl]
                ++ Demo.e_x :: [Demo.u_dat]) Demo.incdirs [])
    = ["e.x has unknown file type 'weird'"].
Proof.
  assert (recognized Demo.e_x = false ∨ file_type Demo.e_x = "user") as Hf.
  { left. reflexivity. }
  split; [exact Hf|].
  pose proof (C4_unrecognized_file_skipped string Demo.str_value
                (demo_tool None "1") [] false
                (mkLoop [] [] [] [] [] [] []) Demo.e_x
                [Demo.a_v; Demo.s_sv; Demo.b_vhd; Demo.c_tcl] [Demo.u_dat]
                Demo.incdirs [] Hf) as (_ & _ & _ & _ & _ & Hw & _).
  vm_compute in Hw. vm_compute. exact Hw.
Defined.

(** C4, as the specification states it: a file of unrecognized type as the
    only input still puts a line into the build script, the [vlib] of its
    library. *)
Lemma C4_unknown_file_writes_vlib :
  recognized Demo.e_x = false
  ∧ build_rtl (write_build_rtl_tcl_file Demo.str_value (demo_tool None "1")
                 [] [] [])
    = []
  ∧ build_rtl (write_build_rtl_tcl_file Demo.str_value (demo_tool None "1")
                 [Demo.e_x] [] [])
    = [Vlib "lib3"]
  ∧ build_rtl_text [Vlib "lib3"] = "vlib lib3" +:+ nl.
Proof. vm_compute. done. Qed.

(** C8, as the specification states it: the [File] object of a file without
    logical name is not, after generation, as it was supplied. *)
Lemma C8_logical_name_overwritten :
  logical_name Demo.a_v = None
  ∧ src_files_after (configure_main Demo.str_value Posix (demo_tool None "1")
                       [Demo.a_v] [])
    = [mkSourceFile "rtl\a.v" "verilogSource" (Some "work")]
  ∧ src_files_after (configure_main Demo.str_value Posix (demo_tool None "1")
                       [Demo.a_v] [])
    ≠ [Demo.a_v].
Proof. vm_compute. split_and!; [done|done|discriminate]. Qed.

Lemma C7_vpi_make_section_witness :
  Demo.foo ∈ vpi_modules (demo_tool None "1")
  ∧ has_block (file_text (write_makefile Demo.str_value Nt (demo_tool None "1")))
      [ "foo_OBJS := a.o b.o";
        "foo_LIBS := -lm";
        "foo_INCS := $(INCS) -I/x";
        EmptyString;
        "$(foo_OBJS): CPPFLAGS := $(foo_INCS)";
        EmptyString;
        "foo: $(foo_OBJS)";
        tab +:+ "$(LD) $(LDFLAGS) -o $@ $? $(foo_LIBS)";
        EmptyString;
        "clean_foo:";
        tab +:+ "$(RM) $(foo_OBJS) foo" ].
Proof.
  assert (Demo.foo ∈ vpi_modules (demo_tool None "1")) as Hin.
  { left. }
  split; [exact Hin|].
  exact (proj2 (proj2 (C7_vpi_make_section string Demo.str_value Nt
                         (demo_tool None "1") Demo.foo Hin)) eq_refl).
Defined.

Lemma C6_run_main_witness :
  plusarg (demo_tool None "1") = [("seed", "1")]
  ∧ run_main Demo.str_value (demo_tool None "1")
    = ("make", ["run"; "PLUSARGS=seed=1"]).
Proof.
  split; [reflexivity|].
  destruct (C6_run_main string Demo.str_value (demo_tool None "1"))
    as (rest & _ & _ & _ & Hseed).
  exact (Hseed "1" eq_refl eq_refl).
Defined.

Arguments edatool_after {value} _.
Arguments edalize_build_rtl_tcl {value} _.

(** ** Witnesses of the further properties *)

Lemma separate_directives_witness :
  compilation_mode (Demo.options None) ≠ Some "common"
  ∧ filter is_cmd
      (build_rtl (write_build_rtl_tcl_file Demo.str_value (demo_tool None "1")
                    Demo.files Demo.incdirs []))
    = [Cmd "vlog"
         ["-timescale=1ns/1ps"; "+define+DEBUG=1"; "+incdir+inc/hdr";
          "-quiet"; "-work"; "work"; "rtl/a.v"];
       Cmd "vlog"
         ["-timescale=1ns/1ps"; "+define+DEBUG=1"; "-sv"; "+incdir+inc/hdr";
          "-quiet"; "-work"; "lib1"; "s.sv"];
       Cmd "vcom" ["-2008"; "-explicit"; "-quiet"; "-work"; "lib1"; "b.vhd"]].
Proof.
  assert (compilation_mode (Demo.options None) ≠ Some "common") as Hm.
  { discriminate. }
  split; [exact Hm|].
  pose proof (separate_directives string Demo.str_value (demo_tool None "1")
                Demo.files Demo.incdirs [] Hm) as H.
  vm_compute in H. vm_compute. exact H.
Defined.

Lemma compile_after_vlib_witness :
  build_rtl (write_build_rtl_tcl_file Demo.str_value (demo_tool None "1")
               [Demo.b_vhd] Demo.incdirs [])
  = [Vlib "lib1"]
    ++ Cmd "vcom" ["-2008"; "-explicit"; "-quiet"; "-work"; "lib1"; "b.vhd"]
       :: []
  ∧ ∃ n, compiles_into
           (Cmd "vcom" ["-2008"; "-explicit"; "-quiet"; "-work"; "lib1"; "b.vhd"])
         = Some n
         ∧ Vlib n ∈ [Vlib "lib1"].
Proof.
  assert (build_rtl (write_build_rtl_tcl_file Demo.str_value (demo_tool None "1")
                       [Demo.b_vhd] Demo.incdirs [])
          = [Vlib "lib1"]
            ++ Cmd "vcom" ["-2008"; "-explicit"; "-quiet"; "-work"; "lib1"; "b.vhd"]
               :: []) as Heq.
  { vm_compute. reflexivity. }
  split; [exact Heq|].
  exact (compile_after_vlib string Demo.str_value (demo_tool None "1")
           [Demo.b_vhd] Demo.incdirs [] _ _ _ _ Heq).
Defined.

Lemma common_vlog_library_witness :
  compilation_mode (Demo.options (Some "common")) = Some "common"
  ∧ ∃ body aggregate,
      build_rtl (write_build_rtl_tcl_file Demo.str_value
                   (demo_tool (Some "common") "1") [Demo.b_vhd] Demo.incdirs [])
      = body ++ [aggregate]
      ∧ is_common_vlog aggregate = true
      ∧ compiles_into aggregate = Some "work"
      ∧ (Vlib "work" ∈ body ↔ ∃ f, f ∈ [Demo.b_vhd] ∧ lib_of f = "work").
Proof.
  split; [reflexivity|].
  exact (common_vlog_library string Demo.str_value
           (demo_tool (Some "common") "1") [Demo.b_vhd] Demo.incdirs [] eq_refl).
Defined.

Lemma second_generation_repeats_flags_witness :
  compilation_mode (Demo.options (Some "common")) = Some "common"
  ∧ vlog_options (Demo.options (Some "common")) = Some ["-timescale=1ns/1ps"]
  ∧ last (edalize_build_rtl_tcl
            (configure_main Demo.str_value Posix
               (edatool_after
                  (configure_main Demo.str_value Posix
                     (demo_tool (Some "common") "1") [Demo.a_v] Demo.incdirs))
               [Demo.a_v] Demo.incdirs))
    = Some (CommonVlog
              ["-timescale=1ns/1ps";
               "+define+DEBUG=1"; "+incdir+inc/hdr";
               "-quiet"; "-work"; "work"; "-mfcu";
               "+define+DEBUG=1"; "+incdir+inc/hdr";
               "-quiet"; "-work"; "work"; "-mfcu"]
              ["rtl/a.v"]).
Proof.
  split; [reflexivity|]. split; [reflexivity|].
  pose proof (proj2 (second_generation_repeats_flags string Demo.str_value
                       Posix (demo_tool (Some "common") "1") [Demo.a_v] Demo.incdirs
                       ["-timescale=1ns/1ps"] eq_refl eq_refl)) as H.
  vm_compute in H. vm_compute. exact H.
Defined.

Lemma build_script_paths_without_backslash_witness :
  Cmd "vlog"
    ["-timescale=1ns/1ps"; "+define+DEBUG=1"; "+incdir+inc/hdr";
     "-quiet"; "-work"; "work"; "rtl/a.v"]
  ∈ build_rtl (write_build_rtl_tcl_file Demo.str_value (demo_tool None "1")
                 [Demo.a_v] Demo.incdirs [])
  ∧ contains_char backslash (name Demo.a_v) = true
  ∧ ∃ p, last ["-timescale=1ns/1ps"; "+define+DEBUG=1"; "+incdir+inc/hdr";
               "-quiet"; "-work"; "work"; "rtl/a.v"] = Some p
         ∧ contains_char backslash p = false.
Proof.
  assert (Cmd "vlog"
            ["-timescale=1ns/1ps"; "+define+DEBUG=1"; "+incdir+inc/hdr";
             "-quiet"; "-work"; "work"; "rtl/a.v"]
          ∈ build_rtl (write_build_rtl_tcl_file Demo.str_value
                         (demo_tool None "1") [Demo.a_v] Demo.incdirs [])) as Hin.
  { vm_compute. right. left. }
  split; [exact Hin|]. split; [reflexivity|].
  exact (proj1 (build_script_paths_without_backslash string Demo.str_value
                  (demo_tool None "1") [Demo.a_v] Demo.incdirs [] _ Hin)).
Defined.

Lemma type_tags_with_suffix_witness :
  "-2005" ≠ EmptyString
  ∧ Cmd "vlog"
      ["-timescale=1ns/1ps"; "+define+DEBUG=1"; "+incdir+inc/hdr";
       "-quiet"; "-work"; "work"; "a.v"]
    ∈ build_rtl (write_build_rtl_tcl_file Demo.str_value (demo_tool None "1")
                   ([Demo.b_vhd]
                    ++ mkSourceFile "a.v" "verilogSource-2005" None :: [])
                   Demo.incdirs [])
  ∧ "c.tcl has unknown file type 'tclSource-2005'"
    ∈ warnings (write_build_rtl_tcl_file Demo.str_value (demo_tool None "1")
                  ([Demo.b_vhd]
                   ++ mkSourceFile "c.tcl" "tclSource-2005" None :: [])
                  Demo.incdirs []).
Proof.
  assert ("-2005" ≠ EmptyString) as Hs.
  { discriminate. }
  split; [exact Hs|].
  split.
  - exact (proj1 (proj1 (proj2
             (type_tags_with_suffix string Demo.str_value (demo_tool None "1")
                [Demo.b_vhd] (mkSourceFile "a.v" "verilogSource-2005" None) []
                Demo.incdirs [] "-2005" Hs)) (or_introl eq_refl))
           ltac:(discriminate)).
  - exact (proj1 (proj2 (proj2
             (type_tags_with_suffix string Demo.str_value (demo_tool None "1")
                [Demo.b_vhd] (mkSourceFile "c.tcl" "tclSource-2005" None) []
                Demo.incdirs [] "-2005" Hs)) (or_introl eq_refl))).
Defined.

(** [os.path.splitext] on the two platforms: the backslash separates path
    components on a Windows host only. *)
Example splitext_on_either_host :
  splitext Posix "rtl.d\a" = ("rtl", ".d\a")
  ∧ splitext Nt "rtl.d\a" = ("rtl.d\a", EmptyString)
  ∧ splitext Posix "src/a.b.c" = ("src/a.b", ".c")
  ∧ splitext Nt "src/a.b.c" = ("src/a.b", ".c")
  ∧ splitext Posix ".bashrc" = (".bashrc", EmptyString).
Proof. vm_compute. done. Qed.

Lemma object_name_root_and_extension_witness :
  Demo.foo ∈ vpi_modules (demo_tool None "1")
  ∧ ∃ objs,
      has_line (file_text (write_makefile Demo.str_value Nt (demo_tool None "1")))
        ("foo_OBJS := " +:+ join " " objs)
      ∧ length objs = 2%nat.
Proof.
  assert (Demo.foo ∈ vpi_modules (demo_tool None "1")) as Hin.
  { left. }
  split; [exact Hin|].
  destruct (object_name_root_and_extension string Demo.str_value Nt
              (demo_tool None "1") Demo.foo Hin) as (objs & Hline & Hall).
  exists objs. split; [exact Hline|].
  symmetry. exact (Forall2_length _ _ _ Hall).
Defined.
